(** * Media-metadata extraction engine (helper/metadata.py)

    A shallow embedding of the extraction and normalisation engine:
    the username resolver, the media-type filter, the error classifier,
    the entry and account builders and the two entry points
    [get_metadata] and [get_metadata_by_date].

    Conventions of the embedding.
    - A Python [str] is a [string] whose characters are the code points
      0..255; [str.lower], [str.strip] and case-insensitive matching act
      on that range as Python does.
    - Python values that flow through dictionaries are [PyVal]s; a [dict]
      is an association list in insertion order.
    - A call either returns a value or raises: [Outcome].
    - The platform extractor (gallery_dl) is a collaborator outside the
      repository; its observable behaviour during one call is a
      [Platform] record. *)

From Stdlib Require Import Bool Arith ZArith List Ascii String Lia.
Import ListNotations.

Set Warnings "-register-all".
Local Open Scope string_scope.
Local Open Scope bool_scope.

(* ===================================================================== *)
(** ** Python strings                                                     *)
(* ===================================================================== *)

Module PyStr.

Definition code (c : ascii) : nat := nat_of_ascii c.

(** [str.lower] on one character: A-Z and the Latin-1 capitals
    (U+00C0..U+00DE except the multiplication sign U+00D7). *)
Definition lower_char (c : ascii) : ascii :=
  let n := code c in
  if (((65 <=? n) && (n <=? 90))
      || ((192 <=? n) && (n <=? 222) && negb (n =? 215)))%nat
  then ascii_of_nat (n + 32)
  else c.

Fixpoint lower (s : string) : string :=
  match s with
  | EmptyString => EmptyString
  | String c r => String (lower_char c) (lower r)
  end.

(** [str.isspace] on one character. *)
Definition is_space (c : ascii) : bool :=
  let n := code c in
  (((9 <=? n) && (n <=? 13)) || ((28 <=? n) && (n <=? 32))
   || (n =? 133) || (n =? 160))%nat.

(** [s.lstrip()] and [s.lstrip(chars)] share one loop. *)
Fixpoint drop_while (p : ascii -> bool) (s : string) : string :=
  match s with
  | EmptyString => EmptyString
  | String c r => if p c then drop_while p r else s
  end.

Fixpoint rev_append (s acc : string) : string :=
  match s with
  | EmptyString => acc
  | String c r => rev_append r (String c acc)
  end.

Definition rev (s : string) : string := rev_append s EmptyString.

Definition lstrip (s : string) : string := drop_while is_space s.
Definition rstrip (s : string) : string := rev (drop_while is_space (rev s)).
Definition strip (s : string) : string := rstrip (lstrip s).

Definition mem (c : ascii) (chars : string) : bool :=
  existsb (Ascii.eqb c) (list_ascii_of_string chars).

Definition lstrip_chars (chars : string) (s : string) : string :=
  drop_while (fun c => mem c chars) s.

(** [s.startswith(p)]. *)
Fixpoint startswith (p s : string) : bool :=
  match p, s with
  | EmptyString, _ => true
  | String a p', String b s' => Ascii.eqb a b && startswith p' s'
  | String _ _, EmptyString => false
  end.

(** [p in s] for strings. *)
Fixpoint contains (p s : string) : bool :=
  startswith p s
  || match s with
     | EmptyString => false
     | String _ r => contains p r
     end.

(** The slices [s[:n]] and [s[n:]]. *)
Fixpoint take (n : nat) (s : string) : string :=
  match n, s with
  | S m, String c r => String c (take m r)
  | _, _ => EmptyString
  end.

Fixpoint drop (n : nat) (s : string) : string :=
  match n, s with
  | S m, String _ r => drop m r
  | _, _ => s
  end.

End PyStr.

(* ===================================================================== *)
(** ** The two regular expressions of the resolver                        *)
(* ===================================================================== *)

(** The fragment of [re] the source's patterns use, matched the way
    [re.match(p, s, re.IGNORECASE)] does: anchored at the start, leftmost
    alternative first, greedy with backtracking.  The only capturing
    group of either pattern is the final negated class. *)
Module Re.

Inductive regex : Type :=
| Lit (l : string)                 (* literal text, compared ignoring case *)
| Seq (a b : regex)
| Alt (a b : regex)                (* a|b *)
| Opt (a : regex)                  (* a? *)
| Group1NotIn (chars : string).    (* ([^chars]+) *)

(** Case-insensitive literal prefix; the literals of the source are in
    lower case already. *)
Fixpoint strip_prefix_ci (l s : string) : option string :=
  match l, s with
  | EmptyString, _ => Some s
  | String a l', String b s' =>
      if Ascii.eqb (PyStr.lower_char b) a then strip_prefix_ci l' s' else None
  | String _ _, EmptyString => None
  end.

(** Longest prefix of [s] made of characters outside [chars]. *)
Fixpoint span_not_in (chars : string) (s : string) : string * string :=
  match s with
  | EmptyString => (EmptyString, EmptyString)
  | String c r =>
      if PyStr.mem c chars then (EmptyString, s)
      else let (run, rest) := span_not_in chars r in (String c run, rest)
  end.

(** Greedy [+]: the longest run first, then shorter ones, never empty. *)
Fixpoint try_lengths {R} (n : nat) (s : string)
         (k : string -> string -> option R) : option R :=
  match n with
  | O => None
  | S m =>
      match k (PyStr.take n s) (PyStr.drop n s) with
      | Some r => Some r
      | None => try_lengths m s k
      end
  end.

(** [exec r s cap k]: match [r] at the start of [s]; on success hand the
    rest of the input and the capture to [k]; when [k] fails, backtrack. *)
Fixpoint exec {R} (r : regex) (s : string) (cap : option string)
         (k : string -> option string -> option R) : option R :=
  match r with
  | Lit l =>
      match strip_prefix_ci l s with
      | Some rest => k rest cap
      | None => None
      end
  | Seq a b => exec a s cap (fun s' cap' => exec b s' cap' k)
  | Alt a b =>
      match exec a s cap k with
      | Some x => Some x
      | None => exec b s cap k
      end
  | Opt a =>
      match exec a s cap k with
      | Some x => Some x
      | None => k s cap
      end
  | Group1NotIn chars =>
      let (run, _) := span_not_in chars s in
      try_lengths (String.length run) s
                  (fun g rest => k rest (Some g))
  end.

(** [re.match(r, s, re.IGNORECASE)], reduced to what the caller reads:
    [None] for no match, else [match.group(1)].  Group 1 takes part in
    every match of both patterns of the source. *)
Definition match_group1 (r : regex) (s : string) : option string :=
  exec r s None (fun _ cap => match cap with
                              | Some g => Some g
                              | None => Some EmptyString
                              end).

End Re.

(* ===================================================================== *)
(** ** Python values, exceptions, outcomes                                *)
(* ===================================================================== *)

(** The values found in the extractor's records.  A [datetime] is kept
    by its rendering under [strftime("%Y-%m-%d %H:%M:%S")], the only
    thing the engine does with one. *)
Inductive PyVal : Type :=
| PyNone
| PyBool (b : bool)
| PyInt (z : Z)
| PyStr (s : string)
| PyDatetime (rendered : string)
| PyList (l : list PyVal)
| PyDict (d : list (string * PyVal)).

Definition dict : Type := list (string * PyVal).

(** Truth value of a Python object. *)
Definition truthy (v : PyVal) : bool :=
  match v with
  | PyNone => false
  | PyBool b => b
  | PyInt z => negb (Z.eqb z 0)
  | PyStr s => negb (String.eqb s "")
  | PyDatetime _ => true
  | PyList l => negb (Nat.eqb (List.length l) 0)
  | PyDict d => negb (Nat.eqb (List.length d) 0)
  end.

Definition type_name (v : PyVal) : string :=
  match v with
  | PyNone => "NoneType"
  | PyBool _ => "bool"
  | PyInt _ => "int"
  | PyStr _ => "str"
  | PyDatetime _ => "datetime.datetime"
  | PyList _ => "list"
  | PyDict _ => "dict"
  end.

(** [d.get(k)] as an option, [k in d], [d.get(k, default)]. *)
Fixpoint dict_get (k : string) (d : dict) : option PyVal :=
  match d with
  | [] => None
  | (k', v) :: r => if String.eqb k k' then Some v else dict_get k r
  end.

Definition dict_has (k : string) (d : dict) : bool :=
  match dict_get k d with Some _ => true | None => false end.

Definition dict_get_default (k : string) (default : PyVal) (d : dict) : PyVal :=
  match dict_get k d with Some v => v | None => default end.

(** [v == s] for a string literal [s]. *)
Definition eq_str (v : option PyVal) (s : string) : bool :=
  match v with
  | Some (PyStr x) => String.eqb x s
  | _ => false
  end.

(** What [error.response] looks like to [_is_withheld_error]: no such
    attribute, an object without [text] (for instance [None]), or an
    object whose [str(text)] is known. *)
Inductive Response : Type :=
| NoResponseAttr
| ResponseWithoutText (type_of_response : string)
| ResponseText (text : string).

(** An instance of [Exception]: whether it is a [ValueError], its
    [str()], and its [response] attribute. *)
Record Exn : Type := mkExn {
  exn_is_value_error : bool;
  exn_str : string;
  exn_response : Response
}.

Definition ValueError (msg : string) : Exn := mkExn true msg NoResponseAttr.

Definition AttributeError (ty attr : string) : Exn :=
  mkExn false ("'" ++ ty ++ "' object has no attribute '" ++ attr ++ "'")
        NoResponseAttr.

Inductive Outcome (A : Type) : Type :=
| Returns (a : A)
| Raises (e : Exn).

Arguments Returns {A} a.
Arguments Raises {A} e.

Definition bind {A B} (m : Outcome A) (f : A -> Outcome B) : Outcome B :=
  match m with
  | Returns a => f a
  | Raises e => Raises e
  end.

Notation "x <- m ;; k" := (bind m (fun x => k))
  (at level 61, m at next level, right associativity).

(** [try: m  except Exception as e: h e]. *)
Definition try_except {A} (m : Outcome A) (h : Exn -> Outcome A) : Outcome A :=
  match m with
  | Returns a => Returns a
  | Raises e => h e
  end.

(* ===================================================================== *)
(** ** Constants                                                          *)
(* ===================================================================== *)

Definition TWITTER_IMAGE_DOMAIN : string := "pbs.twimg.com".
Definition TWITTER_VIDEO_DOMAIN : string := "video.twimg.com".
Definition WITHHELD_ERROR_CODE : string := "withheld".
Definition ERROR_MSG_WITHHELD : string :=
  "Account withheld. Alternative version available at: https://www.patreon.com/exyezed".
Definition ERROR_MSG_AUTH_FAILED : string :=
  "Authentication failed. Verify your auth token is valid.".
Definition ERROR_MSG_ACCOUNT_NOT_FOUND : string :=
  "Failed to fetch account information. Check the username and auth token.".

(* ===================================================================== *)
(** ** Pure helpers                                                       *)
(* ===================================================================== *)

(** (?:https?://)?(?:www\.)?(?:x\.com|twitter\.com) *)
Definition url_head : Re.regex :=
  Re.Seq (Re.Opt (Re.Seq (Re.Lit "http")
                         (Re.Seq (Re.Opt (Re.Lit "s")) (Re.Lit "://"))))
         (Re.Seq (Re.Opt (Re.Lit "www."))
                 (Re.Alt (Re.Lit "x.com") (Re.Lit "twitter.com"))).

Definition url_patterns : list Re.regex :=
  [ Re.Seq url_head (Re.Seq (Re.Lit "/") (Re.Group1NotIn "/?#"));
    Re.Seq url_head (Re.Seq (Re.Lit "/@") (Re.Group1NotIn "/?#")) ].

(** The [for pattern in url_patterns] loop: the first pattern that
    matches decides. *)
Fixpoint first_match (patterns : list Re.regex) (s : string) : option string :=
  match patterns with
  | [] => None
  | p :: rest =>
      match Re.match_group1 p s with
      | Some g => Some g
      | None => first_match rest s
      end
  end.

Definition _parse_username (username_input : string) : string :=
  if PyStr.startswith "id:" username_input then username_input
  else
    let username_input := PyStr.strip username_input in
    match first_match url_patterns username_input with
    | Some username => PyStr.lower (PyStr.lstrip_chars "@" username)
    | None => PyStr.lower (PyStr.lstrip_chars "@" username_input)
    end.

Definition _format_datetime (dt : PyVal) : PyVal :=
  match dt with
  | PyDatetime rendered => PyStr rendered
  | _ => dt
  end.

(** [now] stands for [datetime.now()], read when the record has no date. *)
Definition _build_timeline_entry (now : string) (media_url : string)
           (tweet_data : dict) : dict :=
  let tweet_date := dict_get_default "date" (PyDatetime now) tweet_data in
  let entry :=
    [ ("url", PyStr media_url);
      ("date", _format_datetime tweet_date);
      ("tweet_id", dict_get_default "tweet_id" (PyInt 0) tweet_data) ] in
  let entry :=
    match dict_get "type" tweet_data with
    | Some t => (entry ++ [("type", t)])%list
    | None => entry
    end in
  match dict_get "retweet_id" tweet_data with
  | Some r =>
      if truthy r
      then (entry ++ [("retweet_id", r); ("is_retweet", PyBool true)])%list
      else (entry ++ [("is_retweet", PyBool false)])%list
  | None => (entry ++ [("is_retweet", PyBool false)])%list
  end.

Definition _is_twitter_media (media_url : string) : bool :=
  PyStr.contains TWITTER_IMAGE_DOMAIN media_url
  || PyStr.contains TWITTER_VIDEO_DOMAIN media_url.

Definition _should_include_media (media_url : string) (tweet_data : dict)
           (media_type : string) : bool :=
  if String.eqb media_type "all" then true
  else
    let tweet_type := dict_get "type" tweet_data in
    if String.eqb media_type "image" then
      PyStr.contains TWITTER_IMAGE_DOMAIN media_url && eq_str tweet_type "photo"
    else if String.eqb media_type "video" then
      PyStr.contains TWITTER_VIDEO_DOMAIN media_url && eq_str tweet_type "video"
    else if String.eqb media_type "gif" then
      PyStr.contains TWITTER_VIDEO_DOMAIN media_url
      && eq_str tweet_type "animated_gif"
    else false.

(** The three tests are three statements, each evaluated before the
    final [or]; reading [error.response.text] raises [AttributeError]
    when the response has no [text]. *)
Definition _is_withheld_error (error : Exn) : Outcome bool :=
  let error_msg := PyStr.lower (exn_str error) in
  let is_withheld_value_error :=
    exn_is_value_error error && String.eqb (exn_str error) WITHHELD_ERROR_CODE in
  let has_withheld_in_message := PyStr.contains WITHHELD_ERROR_CODE error_msg in
  has_withheld_in_response <-
    match exn_response error with
    | NoResponseAttr => Returns false
    | ResponseWithoutText ty => Raises (AttributeError ty "text")
    | ResponseText text =>
        Returns (PyStr.contains WITHHELD_ERROR_CODE (PyStr.lower text))
    end ;;
  Returns (is_withheld_value_error || has_withheld_in_message
           || has_withheld_in_response).

(** [user_data.get] needs a [dict]; anything else has no [get]. *)
Definition _build_account_info (user_data : PyVal) : Outcome dict :=
  match user_data with
  | PyDict u =>
      Returns
        [ ("name", dict_get_default "name" (PyStr "") u);
          ("nick", dict_get_default "nick" (PyStr "") u);
          ("date", _format_datetime (dict_get_default "date" (PyStr "") u));
          ("followers_count", dict_get_default "followers_count" (PyInt 0) u);
          ("friends_count", dict_get_default "friends_count" (PyInt 0) u);
          ("profile_image", dict_get_default "profile_image" (PyStr "") u);
          ("statuses_count", dict_get_default "statuses_count" (PyInt 0) u) ]
  | v => Raises (AttributeError (type_name v) "get")
  end.

(* ===================================================================== *)
(** ** The platform extractor                                             *)
(* ===================================================================== *)

Inductive ExtractorClass : Type :=
| TwitterMediaExtractor
| TwitterTweetsExtractor
| TwitterRepliesExtractor
| TwitterTimelineExtractor
| TwitterSearchExtractor.

(** What the iterator yields.  The engine reads [item[1]] and [item[2]]
    of a tuple of at least three components and ignores every other
    item; by the extractor's interface [item[1]] is a [str] and
    [item[2]] a [dict]. *)
Inductive Item : Type :=
| Tuple3 (media_url : string) (tweet_data : dict)
| OtherItem.

(** The attribute [extractor._cursor]: [None] when there is no such
    attribute. *)
Definition CursorAttr : Type := option PyVal.

(** [hasattr(extractor, '_cursor') and extractor._cursor] *)
Definition cursor_set (c : CursorAttr) : bool :=
  match c with
  | Some v => truthy v
  | None => false
  end.

(** [config_dict], read by the extractor through [extractor.config]. *)
Record Config : Type := mkConfig {
  cookies_auth_token : string;
  cfg_retweets : bool;
  cfg_count : option Z
}.

(** One extractor instance, by what the engine can observe of it:
    - [initialize]: [extractor.initialize()] followed by
      [twitter.TwitterAPI(extractor)]; [Some e] when one of them raises;
    - the two account lookups and [_transform_user];
    - [cursor_at_iter]: [_cursor] when [iter(extractor)] returns;
    - [stream]: the items [next] yields in order, each with the value of
      [_cursor] once it is yielded;
    - [stream_end]: how the stream ends, [None] for [StopIteration],
      [Some e] for any other exception [e]. *)
Record Extractor : Type := mkExtractor {
  initialize : option Exn;
  user_by_screen_name : string -> Outcome dict;
  user_by_rest_id : string -> Outcome dict;
  _transform_user : dict -> Outcome PyVal;
  cursor_at_iter : CursorAttr;
  stream : list (Item * CursorAttr);
  stream_end : option Exn
}.

(** The library as a whole: whether [re.match(cls.pattern, url)]
    succeeds, the instance [cls(match)] configured with [config_dict],
    and the clock. *)
Record Platform : Type := mkPlatform {
  pattern_matches : ExtractorClass -> string -> bool;
  construct : ExtractorClass -> string -> Config -> Extractor;
  now : string
}.

(** The iterator [iter(extractor)]. *)
Record Iter : Type := mkIter {
  pending : list (Item * CursorAttr);
  at_end : option Exn;
  _cursor : CursorAttr
}.

Definition iter (extractor : Extractor) : Iter :=
  mkIter (stream extractor) (stream_end extractor) (cursor_at_iter extractor).

Inductive Next : Type :=
| Yield (item : Item) (it : Iter)
| StopIteration
| Fail (e : Exn).

Definition next (it : Iter) : Next :=
  match pending it with
  | (item, c) :: rest => Yield item (mkIter rest (at_end it) c)
  | [] =>
      match at_end it with
      | None => StopIteration
      | Some e => Fail e
      end
  end.

(* ===================================================================== *)
(** ** Results                                                            *)
(* ===================================================================== *)

Record PaginationMetadata : Type := mkPaginationMetadata {
  new_entries : Z;
  meta_page : Z;
  meta_batch_size : Z;
  has_more : bool;
  cursor : PyVal
}.

Record SearchMetadata : Type := mkSearchMetadata {
  search_new_entries : Z;
  method : string;
  date_range : string
}.

Record DateFilter : Type := mkDateFilter {
  filter_start : string;
  filter_end : string;
  filter_method : string
}.

(** The dictionary an entry point returns: the error shape
    [{"error": msg}], or the body of one of the two modes. *)
Inductive Result : Type :=
| ErrorResult (error : string)
| TimelineResult (account_info : dict) (total_urls : Z)
                 (timeline : list dict) (metadata : PaginationMetadata)
| SearchResult (account_info : dict) (total_urls : Z)
               (timeline : list dict) (search_query : string)
               (date_filter : DateFilter) (metadata : SearchMetadata).

Definition is_error (r : Result) : bool :=
  match r with
  | ErrorResult _ => true
  | _ => false
  end.

Definition result_timeline (r : Result) : list dict :=
  match r with
  | ErrorResult _ => []
  | TimelineResult _ _ t _ => t
  | SearchResult _ _ t _ _ _ => t
  end.

Definition result_total_urls (r : Result) : option Z :=
  match r with
  | ErrorResult _ => None
  | TimelineResult _ n _ _ => Some n
  | SearchResult _ n _ _ _ _ => Some n
  end.

Definition result_has_more (r : Result) : option bool :=
  match r with
  | TimelineResult _ _ _ m => Some (has_more m)
  | _ => None
  end.

(* ===================================================================== *)
(** ** The engine                                                         *)
(* ===================================================================== *)

(** The handler both entry points end with:
    [except Exception as e: ...].  A failure of the classifier itself
    leaves the handler as a raised exception. *)
Definition error_boundary (e : Exn) : Outcome Result :=
  withheld <- _is_withheld_error e ;;
  if withheld then Returns (ErrorResult ERROR_MSG_WITHHELD)
  else
    let error_str := exn_str e in
    if String.eqb error_str "None" then Returns (ErrorResult ERROR_MSG_AUTH_FAILED)
    else Returns (ErrorResult error_str).

Definition run_initialize (extractor : Extractor) : Outcome unit :=
  match initialize extractor with
  | None => Returns tt
  | Some e => Raises e
  end.

(** ["legacy" in user and user["legacy"].get("withheld_scope")] *)
Definition withheld_scope (user : dict) : Outcome bool :=
  match dict_get "legacy" user with
  | None => Returns false
  | Some (PyDict legacy) =>
      match dict_get "withheld_scope" legacy with
      | Some flag => Returns (truthy flag)
      | None => Returns false
      end
  | Some v => Raises (AttributeError (type_name v) "get")
  end.

(** The inner [try] around the account lookup, given the lookup's
    outcome. *)
Definition resolve_account (lookup : Outcome dict) : Outcome dict :=
  try_except
    (user <- lookup ;;
     flagged <- withheld_scope user ;;
     if flagged then Raises (ValueError WITHHELD_ERROR_CODE) else Returns user)
    (fun e =>
       withheld <- _is_withheld_error e ;;
       if withheld then Raises (ValueError WITHHELD_ERROR_CODE) else Raises e).

(** [for _ in range(n): next(iterator)] under
    [except StopIteration: pass]. *)
Fixpoint skip_loop (n : nat) (it : Iter) : Outcome Iter :=
  match n with
  | O => Returns it
  | S m =>
      match next it with
      | Yield _ it' => skip_loop m it'
      | StopIteration => Returns it
      | Fail e => Raises e
      end
  end.

(** The offset skip of [get_metadata]. *)
Definition skip_phase (extractor : Extractor) (batch_size page : Z)
  : Outcome Iter :=
  let iterator := iter extractor in
  if (batch_size >? 0)%Z && (page >? 0)%Z then
    let items_to_skip := (page * batch_size)%Z in
    if cursor_set (cursor_at_iter extractor) then Returns iterator
    else skip_loop (Z.to_nat items_to_skip) iterator
  else Returns iterator.

(** The variables the fetch loop of [get_metadata] updates. *)
Record Fetch : Type := mkFetch {
  items_fetched : Z;
  fetch_account_info : dict;
  new_timeline_entries : list dict;
  fetch_total_urls : Z;
  fetch_cursor : CursorAttr
}.

(** The body of the fetch loop for one yielded item. *)
Definition fetch_item (now : string) (media_type : string) (item : Item)
           (c : CursorAttr) (st : Fetch) : Outcome Fetch :=
  let st := mkFetch (items_fetched st + 1)%Z (fetch_account_info st)
                    (new_timeline_entries st) (fetch_total_urls st) c in
  match item with
  | OtherItem => Returns st
  | Tuple3 media_url tweet_data =>
      info <-
        (if negb (truthy (PyDict (fetch_account_info st)))
            && dict_has "user" tweet_data
         then _build_account_info (dict_get_default "user" PyNone tweet_data)
         else Returns (fetch_account_info st)) ;;
      if _is_twitter_media media_url then
        let timeline_entry := _build_timeline_entry now media_url tweet_data in
        if _should_include_media media_url tweet_data media_type then
          Returns (mkFetch (items_fetched st) info
                           (new_timeline_entries st ++ [timeline_entry])%list
                           (fetch_total_urls st + 1)%Z (fetch_cursor st))
        else
          Returns (mkFetch (items_fetched st) info (new_timeline_entries st)
                           (fetch_total_urls st) (fetch_cursor st))
      else
        Returns (mkFetch (items_fetched st) info (new_timeline_entries st)
                         (fetch_total_urls st) (fetch_cursor st))
  end.

(** [while items_fetched < items_to_fetch: item = next(iterator) ...]
    under [except StopIteration: pass]; [items_to_fetch = None] is
    [float('inf')]. *)
Fixpoint fetch_loop (now : string) (media_type : string)
         (items_to_fetch : option Z)
         (pending : list (Item * CursorAttr)) (at_end : option Exn)
         (st : Fetch) : Outcome Fetch :=
  if match items_to_fetch with
     | Some cap => (items_fetched st <? cap)%Z
     | None => true
     end
  then
    match pending with
    | (item, c) :: rest =>
        st' <- fetch_item now media_type item c st ;;
        fetch_loop now media_type items_to_fetch rest at_end st'
    | [] =>
        match at_end with
        | None => Returns st
        | Some e => Raises e
        end
    end
  else Returns st.

Definition fetch_phase (now : string) (media_type : string) (batch_size : Z)
           (iterator : Iter) : Outcome Fetch :=
  let items_to_fetch :=
    if (batch_size >? 0)%Z then Some batch_size else None in
  fetch_loop now media_type items_to_fetch (pending iterator) (at_end iterator)
             (mkFetch 0 [] [] 0 (_cursor iterator)).

Definition extractor_class_of (timeline_type : string) : ExtractorClass :=
  if String.eqb timeline_type "media" then TwitterMediaExtractor
  else if String.eqb timeline_type "tweets" then TwitterTweetsExtractor
  else if String.eqb timeline_type "with_replies" then TwitterRepliesExtractor
  else TwitterTimelineExtractor.

(** The guarded region of [get_metadata]: everything inside its outer
    [try]. *)
Definition timeline_body (P : Platform) (extractor : Extractor)
           (username : string) (batch_size page : Z) (media_type : string)
  : Outcome Result :=
  _ <- run_initialize extractor ;;
  _ <- resolve_account
         (if PyStr.startswith "id:" username
          then user_by_rest_id extractor (PyStr.drop 3 username)
          else user_by_screen_name extractor username) ;;
  iterator <- skip_phase extractor batch_size page ;;
  fetched <- fetch_phase (now P) media_type batch_size iterator ;;
  let cursor_info :=
    match fetch_cursor fetched with
    | Some c => if truthy c then c else PyNone
    | None => PyNone
    end in
  let metadata :=
    mkPaginationMetadata
      (Z.of_nat (List.length (new_timeline_entries fetched)))
      page batch_size
      ((batch_size >? 0)%Z && (items_fetched fetched =? batch_size)%Z)
      cursor_info in
  if negb (truthy (PyDict (fetch_account_info fetched)))
  then Raises (ValueError ERROR_MSG_ACCOUNT_NOT_FOUND)
  else Returns (TimelineResult (fetch_account_info fetched)
                               (fetch_total_urls fetched)
                               (new_timeline_entries fetched) metadata).

(** [url] and [extractor] of [get_metadata], for a resolved username. *)
Definition timeline_url (username timeline_type : string) : string :=
  "https://x.com/" ++ username ++ "/" ++ timeline_type.

Definition timeline_extractor (P : Platform) (username auth_token : string)
           (timeline_type : string) (batch_size : Z) (retweets : bool)
  : Extractor :=
  let config_dict :=
    mkConfig auth_token retweets
             (if (batch_size >? 0)%Z then Some batch_size else None) in
  construct P (extractor_class_of timeline_type)
            (timeline_url username timeline_type) config_dict.

Definition get_metadata (P : Platform) (username auth_token : string)
           (timeline_type : string) (batch_size page : Z)
           (media_type : string) (retweets : bool) : Outcome Result :=
  let username := _parse_username username in
  let url := timeline_url username timeline_type in
  let extractor_class := extractor_class_of timeline_type in
  if negb (pattern_matches P extractor_class url) then
    Raises (ValueError ("Invalid URL for " ++ timeline_type ++ ": " ++ url))
  else
    let extractor :=
      timeline_extractor P username auth_token timeline_type batch_size
                         retweets in
    try_except (timeline_body P extractor username batch_size page media_type)
               error_boundary.

(** The loop of [get_metadata_by_date]: to exhaustion, every item on a
    media domain kept; whatever ends the stream ends the loop, an
    exception other than [StopIteration] with a printed warning (the
    third component). *)
Fixpoint search_loop (now : string) (pending : list (Item * CursorAttr))
         (at_end : option Exn) (entries : list dict) (total : Z)
  : list dict * Z * option string :=
  match pending with
  | (item, _) :: rest =>
      match item with
      | Tuple3 media_url tweet_data =>
          if _is_twitter_media media_url then
            let timeline_entry := _build_timeline_entry now media_url tweet_data in
            search_loop now rest at_end (entries ++ [timeline_entry])%list
                        (total + 1)%Z
          else search_loop now rest at_end entries total
      | OtherItem => search_loop now rest at_end entries total
      end
  | [] =>
      match at_end with
      | None => (entries, total, None)
      | Some e =>
          (entries, total,
           Some ("Warning: Error while fetching timeline items: " ++ exn_str e))
      end
  end.

(** The guarded region of [get_metadata_by_date].  Writing
    [output_file] is left out: a failure there is caught on the spot and
    the returned dictionary does not depend on it. *)
Definition search_body (P : Platform) (extractor : Extractor)
           (username date_start date_end query : string) : Outcome Result :=
  _ <- run_initialize extractor ;;
  user <- resolve_account (user_by_screen_name extractor username) ;;
  user_data <- _transform_user extractor user ;;
  info <- _build_account_info user_data ;;
  let iterator := iter extractor in
  let '(new_timeline_entries, total, _) :=
    search_loop (now P) (pending iterator) (at_end iterator) [] 0%Z in
  Returns (SearchResult info total new_timeline_entries query
             (mkDateFilter date_start date_end "search_api")
             (mkSearchMetadata (Z.of_nat (List.length new_timeline_entries))
                               "search_api"
                               (date_start ++ " to " ++ date_end))).

(** [query], [url] and [extractor] of [get_metadata_by_date], for a
    resolved username. *)
Definition search_query_of (username date_start date_end media_filter : string)
  : string :=
  let query :=
    "from:" ++ username ++ " since:" ++ date_start ++ " until:" ++ date_end in
  if negb (String.eqb media_filter "") then query ++ " " ++ media_filter
  else query.

Definition search_url (query : string) : string :=
  "https://x.com/search?q=" ++ query.

Definition search_extractor (P : Platform) (auth_token query : string)
  : Extractor :=
  let config_dict := mkConfig auth_token false None in
  construct P TwitterSearchExtractor (search_url query) config_dict.

Definition get_metadata_by_date (P : Platform) (username auth_token : string)
           (date_start date_end : string) (media_filter : string)
           (output_file : option string) : Outcome Result :=
  let username := _parse_username username in
  let query := search_query_of username date_start date_end media_filter in
  let url := search_url query in
  if negb (pattern_matches P TwitterSearchExtractor url) then
    Raises (ValueError ("Invalid search URL: " ++ url))
  else
    let extractor := search_extractor P auth_token query in
    try_except (search_body P extractor username date_start date_end query)
               error_boundary.

(* ===================================================================== *)
(** ** Predicates used in the statements                                  *)
(* ===================================================================== *)

(** A failure without a [response] lacking [text] is always classified. *)
Definition classifiable (e : Exn) : bool :=
  match exn_response e with
  | ResponseWithoutText _ => false
  | _ => true
  end.

(** The item a timeline call appends an entry for. *)
Definition passes (media_type : string) (item : Item) : bool :=
  match item with
  | Tuple3 media_url tweet_data =>
      _is_twitter_media media_url
      && _should_include_media media_url tweet_data media_type
  | OtherItem => false
  end.

(** The item a date-range call appends an entry for. *)
Definition on_media_domain (item : Item) : bool :=
  match item with
  | Tuple3 media_url _ => _is_twitter_media media_url
  | OtherItem => false
  end.

Definition entry_of (now : string) (item : Item) : dict :=
  match item with
  | Tuple3 media_url tweet_data => _build_timeline_entry now media_url tweet_data
  | OtherItem => []
  end.

(** How many items the fetch loop takes from [pending]. *)
Definition consumed (items_to_fetch : option Z) (st : Fetch)
           (pending : list (Item * CursorAttr)) : nat :=
  match items_to_fetch with
  | Some cap => Nat.min (Z.to_nat (cap - items_fetched st)) (List.length pending)
  | None => List.length pending
  end.

(** Every character of [s] satisfies [p]. *)
Fixpoint all_chars (p : ascii -> bool) (s : string) : bool :=
  match s with
  | EmptyString => true
  | String c r => p c && all_chars p r
  end.

(** A character a handle may hold: none of the delimiters the resolver
    reacts to, and no white space. *)
Definition handle_char (c : ascii) : bool :=
  negb (PyStr.mem c "/?#@:") && negb (PyStr.is_space c).

(** A canonical handle: not empty, made of handle characters, in lower
    case. *)
Definition is_handle (h : string) : bool :=
  negb (String.eqb h "") && all_chars handle_char h
  && String.eqb (PyStr.lower h) h.

(** The heads a profile URL may start with, in lower case. *)
Definition url_heads : list string :=
  flat_map (fun scheme =>
    flat_map (fun www =>
      map (fun domain => scheme ++ www ++ domain) ["x.com"; "twitter.com"])
      [""; "www."])
    [""; "http://"; "https://"].

Definition is_url_head (p : string) : bool :=
  existsb (String.eqb (PyStr.lower p)) url_heads.

(** What may follow the handle in a URL: nothing, or a path, query or
    fragment. *)
Definition is_url_tail (t : string) : bool :=
  match t with
  | EmptyString => true
  | String c _ => PyStr.mem c "/?#"
  end.

Definition not_space (c : ascii) : bool := negb (PyStr.is_space c).

Definition not_slash (c : ascii) : bool := negb (Ascii.eqb c "/").

Definition outside (chars : string) (c : ascii) : bool := negb (PyStr.mem c chars).

Definition stops_at (chars : string) (t : string) : bool :=
  match t with
  | EmptyString => true
  | String c _ => PyStr.mem c chars
  end.

(* ===================================================================== *)
(** ** Sample platforms                                                   *)
(* ===================================================================== *)

Module Sample.

Definition account : dict :=
  [ ("name", PyStr "xbatchdemo"); ("nick", PyStr "X Batch Demo");
    ("followers_count", PyInt 12) ].

Definition photo (n : Z) : Item :=
  Tuple3 "https://pbs.twimg.com/media/a.jpg"
         [ ("tweet_id", PyInt n); ("date", PyDatetime "2024-05-01 10:00:00");
           ("type", PyStr "photo"); ("user", PyDict account) ].

Definition video (n : Z) : Item :=
  Tuple3 "https://video.twimg.com/ext_tw_video/b.mp4"
         [ ("tweet_id", PyInt n); ("date", PyDatetime "2024-05-02 11:00:00");
           ("type", PyStr "video"); ("user", PyDict account) ].

(** A pattern check in the manner of the library's: the timeline classes
    want [https://x.com/<user>/<kind>] with their own kind, the search
    class [https://x.com/search?q=...]. *)
Definition ends_with (suffix s : string) : bool :=
  PyStr.startswith (PyStr.rev suffix) (PyStr.rev s).

Definition pattern (cls : ExtractorClass) (url : string) : bool :=
  PyStr.startswith "https://x.com/" url
  && match cls with
     | TwitterMediaExtractor => ends_with "/media" url
     | TwitterTweetsExtractor => ends_with "/tweets" url
     | TwitterRepliesExtractor => ends_with "/with_replies" url
     | TwitterTimelineExtractor => ends_with "/timeline" url
     | TwitterSearchExtractor => PyStr.startswith "https://x.com/search?q=" url
     end.

(** An extractor that initialises, finds the account [user] and yields
    [items], leaving [_cursor] at [c] throughout. *)
Definition extractor (user : dict) (c : CursorAttr) (items : list Item)
           (ending : option Exn) : Extractor :=
  mkExtractor None (fun _ => Returns user) (fun _ => Returns user)
              (fun u => Returns (PyDict u)) c
              (map (fun i => (i, c)) items) ending.

Definition platform (ex : Extractor) : Platform :=
  mkPlatform pattern (fun _ _ _ => ex) "2024-06-01 00:00:00".

(** A healthy account with three media items. *)
Definition healthy : Platform :=
  platform (extractor [("rest_id", PyStr "42")] None
                      [photo 1; video 2; photo 3] None).

(** The same stream when the extractor already holds a cursor token. *)
Definition with_cursor : Platform :=
  platform (extractor [("rest_id", PyStr "42")] (Some (PyStr "DAABCgAB"))
                      [photo 1; video 2; photo 3] None).

(** An account whose record carries a withheld scope. *)
Definition withheld : Platform :=
  platform (extractor [("rest_id", PyStr "42");
                       ("legacy", PyDict [("withheld_scope", PyStr "Suspended")])]
                      None [photo 1] None).

(** Missing credentials: initialisation fails with a message [None]. *)
Definition unauthenticated : Platform :=
  platform (mkExtractor (Some (mkExn false "None" NoResponseAttr))
                        (fun _ => Returns []) (fun _ => Returns [])
                        (fun u => Returns (PyDict u)) None [] None).

(** A transport failure in mid-stream, carrying [response = None]. *)
Definition connection_error : Exn :=
  mkExn false "Connection aborted." (ResponseWithoutText "NoneType").

Definition broken_stream : Platform :=
  platform (extractor [("rest_id", PyStr "42")] None [photo 1]
                      (Some connection_error)).

(** The second page of batches of one over the healthy stream. *)
Definition second_page : Result :=
  match get_metadata Sample.healthy "@Handle" "token" "timeline" 1 1 "all" false with
  | Returns r => r
  | Raises _ => ErrorResult ""
  end.

End Sample.

(* ===================================================================== *)
(** ** UsernameResolver                                                  *)
(* ===================================================================== *)

Ltac all_ascii c := destruct c as [[] [] [] [] [] [] [] []].

Lemma handle_char_lower c : handle_char (PyStr.lower_char c) = handle_char c.
Proof. all_ascii c; vm_compute; reflexivity. Qed.

Lemma is_space_lower c : PyStr.is_space (PyStr.lower_char c) = PyStr.is_space c.
Proof. all_ascii c; vm_compute; reflexivity. Qed.

Lemma lower_char_slash c : PyStr.lower_char c = "/"%char -> c = "/"%char.
Proof. all_ascii c; vm_compute; intros H; try reflexivity; discriminate H. Qed.

Lemma all_chars_app p a b :
  all_chars p (a ++ b) = all_chars p a && all_chars p b.
Proof.
  induction a as [| c a IH]; simpl; [reflexivity |].
  rewrite IH. apply Bool.andb_assoc.
Qed.

Lemma all_chars_lower s : all_chars handle_char (PyStr.lower s) = all_chars handle_char s.
Proof.
  induction s as [| c s IH]; simpl; [reflexivity |].
  rewrite handle_char_lower, IH. reflexivity.
Qed.

Lemma all_chars_weaken (p q : ascii -> bool) s :
  (forall c, p c = true -> q c = true) ->
  all_chars p s = true -> all_chars q s = true.
Proof.
  intros Hpq. induction s as [| c s IH]; simpl; [reflexivity |].
  intros H. apply Bool.andb_true_iff in H. destruct H as [H1 H2].
  rewrite (Hpq c H1), (IH H2). reflexivity.
Qed.

Lemma append_nil_r (s : string) : s ++ "" = s.
Proof. induction s; simpl; congruence. Qed.

Lemma append_assoc (a b c : string) : (a ++ b) ++ c = a ++ b ++ c.
Proof. induction a; simpl; congruence. Qed.

Lemma rev_append_eq s : forall acc, PyStr.rev_append s acc = PyStr.rev s ++ acc.
Proof.
  unfold PyStr.rev. induction s as [| c s IH]; intros acc; simpl; [reflexivity |].
  rewrite IH, (IH (String c "")), append_assoc. reflexivity.
Qed.

Lemma rev_cons c s : PyStr.rev (String c s) = PyStr.rev s ++ String c "".
Proof. unfold PyStr.rev at 1. simpl. apply rev_append_eq. Qed.

Lemma rev_app a b : PyStr.rev (a ++ b) = PyStr.rev b ++ PyStr.rev a.
Proof.
  induction a as [| c a IH]; simpl.
  - change (PyStr.rev "") with "". rewrite append_nil_r. reflexivity.
  - rewrite !rev_cons, IH, append_assoc. reflexivity.
Qed.

Lemma rev_involutive s : PyStr.rev (PyStr.rev s) = s.
Proof.
  induction s as [| c s IH]; [reflexivity |].
  rewrite rev_cons, rev_app, IH. reflexivity.
Qed.

Lemma drop_while_app p x c y :
  p c = false ->
  PyStr.drop_while p (x ++ String c y) = PyStr.drop_while p x ++ String c y.
Proof.
  intros H. induction x as [| d x IH]; simpl.
  - rewrite H. reflexivity.
  - destruct (p d); [exact IH | reflexivity].
Qed.

Lemma last_char (a : string) :
  a <> "" -> exists a0 c, a = a0 ++ String c "".
Proof.
  induction a as [| d a IH]; intros H; [contradiction |].
  destruct a as [| e a'].
  - exists "", d. reflexivity.
  - destruct IH as (a0 & c & E); [discriminate |].
    exists (String d a0), c. simpl. rewrite <- E. reflexivity.
Qed.

(** [strip] leaves alone a text free of white space, and removes after
    it only what [rstrip] removes from the rest. *)
Lemma strip_keeps_body a b :
  all_chars not_space a = true -> a <> "" ->
  PyStr.strip (a ++ b) = a ++ PyStr.rstrip b.
Proof.
  intros Ha Hne. unfold PyStr.strip, PyStr.lstrip.
  assert (L : PyStr.drop_while PyStr.is_space (a ++ b) = a ++ b).
  { destruct a as [| d r]; [contradiction |]. simpl in *.
    apply Bool.andb_true_iff in Ha. destruct Ha as [Hd _].
    apply Bool.negb_true_iff in Hd. rewrite Hd. reflexivity. }
  rewrite L. destruct (last_char a Hne) as (a0 & c & ->).
  rewrite all_chars_app in Ha. apply Bool.andb_true_iff in Ha.
  destruct Ha as [_ Hc]. simpl in Hc. rewrite Bool.andb_true_r in Hc.
  apply Bool.negb_true_iff in Hc.
  unfold PyStr.rstrip. rewrite append_assoc. simpl append at 2.
  rewrite rev_app, rev_cons, append_assoc. simpl append at 2.
  rewrite (drop_while_app _ _ _ _ Hc), rev_app, rev_cons, rev_involutive.
  rewrite !append_assoc. reflexivity.
Qed.

Lemma rstrip_tail t : is_url_tail t = true -> is_url_tail (PyStr.rstrip t) = true.
Proof.
  destruct t as [| c t]; [reflexivity |]. simpl. intros H.
  assert (Hc : PyStr.is_space c = false).
  { revert H. all_ascii c; vm_compute; intros H; try reflexivity; discriminate H. }
  unfold PyStr.rstrip. rewrite rev_cons, (drop_while_app _ _ _ _ Hc), rev_app.
  simpl. exact H.
Qed.

(** *** The matcher on texts without a slash *)

Lemma strip_prefix_ci_suffix (q : ascii -> bool) (l : string) :
  forall s r, Re.strip_prefix_ci l s = Some r ->
              all_chars q s = true -> all_chars q r = true.
Proof.
  induction l as [| a l IH]; intros s r H Hs; simpl in H.
  - injection H as <-. exact Hs.
  - destruct s as [| b s]; [discriminate H |].
    destruct (Ascii.eqb (PyStr.lower_char b) a); [| discriminate H].
    simpl in Hs. apply Bool.andb_true_iff in Hs. exact (IH _ _ H (proj2 Hs)).
Qed.

Lemma drop_all_chars (q : ascii -> bool) (n : nat) :
  forall s, all_chars q s = true -> all_chars q (PyStr.drop n s) = true.
Proof.
  induction n as [| n IH]; intros s H; [destruct s; exact H |].
  destruct s as [| c s]; [exact H |]. simpl in *.
  apply Bool.andb_true_iff in H. exact (IH _ (proj2 H)).
Qed.

Lemma try_lengths_fails {R} (s : string) (k : string -> string -> option R) :
  (forall n, k (PyStr.take n s) (PyStr.drop n s) = None) ->
  forall n, Re.try_lengths n s k = None.
Proof.
  intros Hk. induction n as [| n IH]; cbn [Re.try_lengths]; [reflexivity |].
  rewrite (Hk (S n)). exact IH.
Qed.

(** A continuation that fails on every text made of [q]-characters makes
    the whole match fail on such a text: the matcher only ever hands
    over a suffix of its input. *)
Lemma exec_fails {R} (q : ascii -> bool) (r : Re.regex) :
  forall (s : string) (cap : option string)
         (k : string -> option string -> option R),
    all_chars q s = true ->
    (forall s' cap', all_chars q s' = true -> k s' cap' = None) ->
    Re.exec r s cap k = None.
Proof.
  induction r as [l | a IHa b IHb | a IHa b IHb | a IHa | chars];
    intros s cap k Hs Hk; simpl.
  - destruct (Re.strip_prefix_ci l s) as [rest |] eqn:E; [| reflexivity].
    apply Hk. exact (strip_prefix_ci_suffix q l s rest E Hs).
  - apply IHa; [exact Hs |]. intros s' cap' Hs'. apply IHb; assumption.
  - rewrite (IHa s cap k Hs Hk). apply IHb; assumption.
  - rewrite (IHa s cap k Hs Hk). apply Hk, Hs.
  - destruct (Re.span_not_in chars s) as [run rest].
    apply try_lengths_fails. intros n. apply Hk, drop_all_chars, Hs.
Qed.

Lemma exec_seq {R} (a b : Re.regex) (s : string) (cap : option string)
      (k : string -> option string -> option R) :
  Re.exec (Re.Seq a b) s cap k
  = Re.exec a s cap (fun s' cap' => Re.exec b s' cap' k).
Proof. reflexivity. Qed.

Lemma exec_lit {R} (l s : string) (cap : option string)
      (k : string -> option string -> option R) :
  Re.exec (Re.Lit l) s cap k
  = match Re.strip_prefix_ci l s with
    | Some rest => k rest cap
    | None => None
    end.
Proof. reflexivity. Qed.

Lemma slash_needed (l s : string) :
  all_chars not_slash s = true ->
  Re.strip_prefix_ci (String "/" l) s = None.
Proof.
  destruct s as [| b s]; simpl; [reflexivity |]. intros H.
  destruct (Ascii.eqb_spec (PyStr.lower_char b) "/") as [E |]; [| reflexivity].
  apply lower_char_slash in E. subst b. discriminate H.
Qed.

Lemma first_match_needs_slash (s : string) :
  all_chars not_slash s = true -> first_match url_patterns s = None.
Proof.
  intros Hs. unfold first_match, url_patterns, Re.match_group1.
  assert (F : forall l,
             Re.exec (Re.Seq url_head
                             (Re.Seq (Re.Lit (String "/" l)) (Re.Group1NotIn "/?#")))
                     s None
                     (fun _ cap => match cap with
                                   | Some g => Some g
                                   | None => Some ""
                                   end) = None).
  { intros l. rewrite exec_seq.
    apply (exec_fails not_slash); [exact Hs |].
    intros s' cap' Hs'.
    rewrite exec_seq, exec_lit, (slash_needed l s' Hs'). reflexivity. }
  rewrite (F ""), (F "@"). reflexivity.
Qed.

(** *** The matcher on profile URLs *)

Lemma span_not_in_app (chars v t : string) :
  all_chars (outside chars) v = true -> stops_at chars t = true ->
  Re.span_not_in chars (v ++ t) = (v, t).
Proof.
  intros Hv Ht. induction v as [| c v IH]; simpl.
  - destruct t as [| d t]; [reflexivity |]. simpl in *. rewrite Ht. reflexivity.
  - simpl in Hv. apply Bool.andb_true_iff in Hv. destruct Hv as [Hc Hv].
    apply Bool.negb_true_iff in Hc. rewrite Hc, (IH Hv). reflexivity.
Qed.

Lemma take_length_app (v t : string) : PyStr.take (String.length v) (v ++ t) = v.
Proof. induction v as [| c v IH]; simpl; [destruct t |]; congruence. Qed.

Lemma drop_length_app (v t : string) : PyStr.drop (String.length v) (v ++ t) = t.
Proof. induction v as [| c v IH]; simpl; [destruct t; reflexivity | exact IH]. Qed.

(** The group takes the whole run up to the first delimiter. *)
Lemma exec_group_app {R} (chars v t : string) (cap : option string)
      (k : string -> option string -> option R) (x : R) :
  all_chars (outside chars) v = true -> v <> "" -> stops_at chars t = true ->
  k t (Some v) = Some x ->
  Re.exec (Re.Group1NotIn chars) (v ++ t) cap k = Some x.
Proof.
  intros Hv Hne Ht Hk. cbn [Re.exec]. rewrite (span_not_in_app _ _ _ Hv Ht).
  destruct v as [| c v]; [contradiction |].
  cbn [String.length Re.try_lengths].
  change (S (String.length v)) with (String.length (String c v)).
  rewrite take_length_app, drop_length_app, Hk. reflexivity.
Qed.

Ltac lower_inv :=
  repeat match goal with
         | H : PyStr.lower ?s = String _ _ |- _ =>
             destruct s as [| ? ?]; cbn [PyStr.lower] in H;
             [discriminate H | let E := fresh "E" in injection H as E H]
         | H : PyStr.lower ?s = EmptyString |- _ =>
             destruct s as [| ? ?]; cbn [PyStr.lower] in H;
             [clear H | discriminate H]
         end.

Ltac rewrite_chars :=
  repeat (match goal with
          | E : PyStr.lower_char _ = _ |- _ => rewrite !E
          end; cbn).

Lemma lower_char_not_i (c : ascii) :
  PyStr.lower_char c <> "i"%char -> Ascii.eqb "i" c = false.
Proof.
  intros H. destruct (Ascii.eqb_spec "i" c) as [<- |]; [| reflexivity].
  exfalso. apply H. reflexivity.
Qed.

Opaque PyStr.lower_char.

(** A head in any mix of cases is consumed whole, by the first path the
    matcher tries that fits. *)
Lemma exec_head_prefix {R} (p rest : string) (cap : option string)
      (k : string -> option string -> option R) (x : R) :
  is_url_head p = true -> k rest cap = Some x ->
  Re.exec url_head (p ++ rest) cap k = Some x.
Proof.
  unfold is_url_head. cbn [url_heads flat_map map app append existsb].
  rewrite !Bool.orb_true_iff, !String.eqb_eq. intros H Hk.
  repeat destruct H as [H | H]; try discriminate H;
    lower_inv; cbn; rewrite_chars; rewrite ?Hk; reflexivity.
Qed.

Lemma url_head_not_id (p rest : string) :
  is_url_head p = true -> PyStr.startswith "id:" (p ++ rest) = false.
Proof.
  unfold is_url_head. cbn [url_heads flat_map map app append existsb].
  rewrite !Bool.orb_true_iff, !String.eqb_eq. intros H.
  repeat destruct H as [H | H]; try discriminate H;
    lower_inv; cbn [append PyStr.startswith];
    rewrite lower_char_not_i; try reflexivity;
    match goal with E : PyStr.lower_char ?a = _ |- PyStr.lower_char ?a <> _ =>
                      rewrite E; discriminate
    end.
Qed.

Transparent PyStr.lower_char.

Lemma not_space_lower (s : string) :
  all_chars not_space (PyStr.lower s) = all_chars not_space s.
Proof.
  induction s as [| c s IH]; simpl; [reflexivity |].
  unfold not_space at 1 3. rewrite is_space_lower, IH. reflexivity.
Qed.

Lemma url_head_not_space (p : string) :
  is_url_head p = true -> all_chars not_space p = true /\ p <> "".
Proof.
  unfold is_url_head. cbn [url_heads flat_map map app append existsb].
  rewrite !Bool.orb_true_iff, !String.eqb_eq. intros H.
  rewrite <- not_space_lower.
  repeat destruct H as [H | H]; try discriminate H;
    (split; [rewrite H; reflexivity | intros ->; discriminate H]).
Qed.

(** What [is_handle] gives for every text that lowers to the handle. *)
Lemma handle_variant (h v : string) :
  is_handle h = true -> PyStr.lower v = h ->
  all_chars handle_char v = true /\ v <> "".
Proof.
  unfold is_handle. intros H <-.
  apply Bool.andb_true_iff in H. destruct H as [H _].
  apply Bool.andb_true_iff in H. destruct H as [Hne Hc].
  rewrite all_chars_lower in Hc. split; [exact Hc |].
  intros ->. discriminate Hne.
Qed.

Lemma handle_char_not_space c : handle_char c = true -> not_space c = true.
Proof. unfold handle_char. intros H. apply Bool.andb_true_iff in H. tauto. Qed.

Lemma handle_char_not_slash c : handle_char c = true -> not_slash c = true.
Proof. all_ascii c; vm_compute; intros H; try reflexivity; discriminate H. Qed.

Lemma handle_char_outside c : handle_char c = true -> outside "/?#" c = true.
Proof. all_ascii c; vm_compute; intros H; try reflexivity; discriminate H. Qed.

Lemma handle_char_not_at c : handle_char c = true -> PyStr.mem c "@" = false.
Proof. all_ascii c; vm_compute; intros H; try reflexivity; discriminate H. Qed.

Lemma handle_char_not_colon c : handle_char c = true -> Ascii.eqb ":" c = false.
Proof. all_ascii c; vm_compute; intros H; try reflexivity; discriminate H. Qed.

Lemma handle_not_id (v : string) :
  all_chars handle_char v = true -> PyStr.startswith "id:" v = false.
Proof.
  destruct v as [| a [| b [| c v]]]; cbn [PyStr.startswith all_chars]; intros H;
    rewrite ?Bool.andb_false_r; try reflexivity.
  repeat (apply Bool.andb_true_iff in H; destruct H as [? H]).
  rewrite (handle_char_not_colon c) by assumption.
  rewrite !Bool.andb_false_r. reflexivity.
Qed.

Lemma handle_lstrip_at (v : string) :
  all_chars handle_char v = true -> PyStr.lstrip_chars "@" v = v.
Proof.
  destruct v as [| c v]; [reflexivity |]. cbn [all_chars]. intros H.
  apply Bool.andb_true_iff in H. destruct H as [H _].
  unfold PyStr.lstrip_chars. cbn [PyStr.drop_while].
  rewrite (handle_char_not_at c H). reflexivity.
Qed.

Lemma parse_plain (v : string) :
  all_chars handle_char v = true -> v <> "" ->
  _parse_username v = PyStr.lower v.
Proof.
  intros Hc Hne. unfold _parse_username.
  rewrite (handle_not_id v Hc).
  assert (S : PyStr.strip v = v).
  { rewrite <- (append_nil_r v) at 1.
    rewrite strip_keeps_body;
      [apply append_nil_r
      | exact (all_chars_weaken _ _ _ handle_char_not_space Hc) | exact Hne]. }
  rewrite S.
  rewrite first_match_needs_slash
    by exact (all_chars_weaken _ _ _ handle_char_not_slash Hc).
  rewrite (handle_lstrip_at v Hc). reflexivity.
Qed.

Lemma parse_at (v : string) :
  all_chars handle_char v = true -> v <> "" ->
  _parse_username ("@" ++ v) = PyStr.lower v.
Proof.
  intros Hc Hne. unfold _parse_username.
  change (PyStr.startswith "id:" ("@" ++ v)) with false. cbv iota.
  assert (S : PyStr.strip ("@" ++ v) = "@" ++ v).
  { rewrite <- (append_nil_r ("@" ++ v)) at 1.
    rewrite strip_keeps_body; [apply append_nil_r | | discriminate].
    cbn [append all_chars].
    rewrite (all_chars_weaken _ _ _ handle_char_not_space Hc). reflexivity. }
  rewrite S.
  rewrite first_match_needs_slash.
  - change (PyStr.lstrip_chars "@" ("@" ++ v)) with (PyStr.lstrip_chars "@" v).
    rewrite (handle_lstrip_at v Hc). reflexivity.
  - cbn [append all_chars].
    rewrite (all_chars_weaken _ _ _ handle_char_not_slash Hc). reflexivity.
Qed.

Lemma parse_url (p v t : string) :
  is_url_head p = true -> all_chars handle_char v = true -> v <> "" ->
  is_url_tail t = true ->
  _parse_username (p ++ "/" ++ v ++ t) = PyStr.lower v.
Proof.
  intros Hp Hc Hne Ht. unfold _parse_username.
  rewrite (url_head_not_id p _ Hp).
  destruct (url_head_not_space p Hp) as [Hps Hpne].
  assert (S : PyStr.strip (p ++ "/" ++ v ++ t)
              = p ++ "/" ++ v ++ PyStr.rstrip t).
  { replace (p ++ "/" ++ v ++ t) with ((p ++ "/" ++ v) ++ t)
      by (rewrite !append_assoc; reflexivity).
    rewrite strip_keeps_body.
    - rewrite !append_assoc. reflexivity.
    - rewrite !all_chars_app, Hps.
      rewrite (all_chars_weaken _ _ _ handle_char_not_space Hc). reflexivity.
    - destruct p; [contradiction | discriminate]. }
  rewrite S.
  assert (M : Re.match_group1
                (Re.Seq url_head (Re.Seq (Re.Lit "/") (Re.Group1NotIn "/?#")))
                (p ++ "/" ++ v ++ PyStr.rstrip t) = Some v).
  { unfold Re.match_group1. rewrite exec_seq.
    apply exec_head_prefix; [exact Hp |].
    rewrite exec_seq, exec_lit.
    change (Re.strip_prefix_ci "/" ("/" ++ v ++ PyStr.rstrip t))
      with (Some (v ++ PyStr.rstrip t)).
    apply exec_group_app;
      [exact (all_chars_weaken _ _ _ handle_char_outside Hc) | exact Hne
      | exact (rstrip_tail t Ht) | reflexivity]. }
  unfold url_patterns, first_match. rewrite M.
  rewrite (handle_lstrip_at v Hc). reflexivity.
Qed.

(** C6.  For a handle [h] (lower case, not empty, free of the
    delimiters and of white space) and any spelling [v] of it in upper
    or mixed case, the resolver maps [v], [@v] and every profile URL
    [<head>/v<tail>] to [h]; the head is [x.com] or [twitter.com] in
    any case, with or without [www.] and [http://] or [https://]; the
    tail is empty or a path, query or fragment such as [/status/1]. *)
Theorem resolver_canonical (h v p t : string) :
  is_handle h = true -> PyStr.lower v = h ->
  is_url_head p = true -> is_url_tail t = true ->
  _parse_username h = h
  /\ _parse_username v = h
  /\ _parse_username ("@" ++ v) = h
  /\ _parse_username (p ++ "/" ++ v ++ t) = h
  /\ _parse_username ("https://x.com/" ++ v) = h
  /\ _parse_username ("https://twitter.com/" ++ v ++ "/status/1") = h.
Proof.
  intros Hh Hv Hp Ht.
  destruct (handle_variant h v Hh Hv) as [Hc Hne].
  assert (Hlow : PyStr.lower h = h).
  { unfold is_handle in Hh. apply Bool.andb_true_iff in Hh.
    apply String.eqb_eq. exact (proj2 Hh). }
  destruct (handle_variant h h Hh Hlow) as [Hc' Hne'].
  split; [rewrite (parse_plain h Hc' Hne'); exact Hlow |].
  split; [rewrite (parse_plain v Hc Hne); exact Hv |].
  split; [rewrite (parse_at v Hc Hne); exact Hv |].
  split; [rewrite (parse_url p v t Hp Hc Hne Ht); exact Hv |].
  split.
  - pose proof (parse_url "https://x.com" v "" eq_refl Hc Hne eq_refl) as E.
    rewrite append_nil_r in E. exact (eq_trans E Hv).
  - exact (eq_trans (parse_url "https://twitter.com" v "/status/1"
                               eq_refl Hc Hne eq_refl) Hv).
Qed.

(** One handle in six spellings. *)
Lemma resolver_canonical_witness :
  _parse_username "handle" = "handle"
  /\ _parse_username "HanDle" = "handle"
  /\ _parse_username ("@" ++ "HanDle") = "handle"
  /\ _parse_username ("HTTP://WWW.Twitter.COM" ++ "/" ++ "HanDle" ++ "?lang=en")
     = "handle"
  /\ _parse_username ("https://x.com/" ++ "HanDle") = "handle"
  /\ _parse_username ("https://twitter.com/" ++ "HanDle" ++ "/status/1")
     = "handle".
Proof.
  exact (resolver_canonical "handle" "HanDle" "HTTP://WWW.Twitter.COM"
                            "?lang=en" eq_refl eq_refl eq_refl eq_refl).
Defined.

(* ===================================================================== *)
(** ** Basic facts                                                        *)
(* ===================================================================== *)

Lemma bind_returns {A B} (m : Outcome A) (f : A -> Outcome B) (b : B) :
  bind m f = Returns b -> exists a, m = Returns a /\ f a = Returns b.
Proof.
  destruct m as [a | e]; simpl; intros H.
  - exists a. split; [reflexivity | exact H].
  - discriminate H.
Qed.

Lemma eq_str_true (v : option PyVal) (s : string) :
  eq_str v s = true <-> v = Some (PyStr s).
Proof.
  unfold eq_str. split.
  - destruct v as [[ | | | x | | | ] | ]; try discriminate.
    intros H. apply String.eqb_eq in H. now subst.
  - intros ->. apply String.eqb_refl.
Qed.

Lemma classifiable_total (e : Exn) :
  classifiable e = true -> exists b, _is_withheld_error e = Returns b.
Proof.
  unfold classifiable, _is_withheld_error.
  destruct (exn_response e); intros H; try discriminate; simpl; eauto.
Qed.

Lemma error_boundary_classifiable (e : Exn) :
  classifiable e = true -> exists msg, error_boundary e = Returns (ErrorResult msg).
Proof.
  intros H. destruct (classifiable_total e H) as [b Hb].
  unfold error_boundary. rewrite Hb. simpl.
  destruct b; [eauto |].
  destruct (String.eqb (exn_str e) "None"); eauto.
Qed.

(** A flagged record leaves the account lookup as the withheld marker. *)
Lemma resolve_account_flagged (user legacy : dict) (flag : PyVal) :
  dict_get "legacy" user = Some (PyDict legacy) ->
  dict_get "withheld_scope" legacy = Some flag ->
  truthy flag = true ->
  resolve_account (Returns user) = Raises (ValueError WITHHELD_ERROR_CODE).
Proof.
  intros Hl Hw Ht. unfold resolve_account, withheld_scope. simpl.
  rewrite Hl, Hw, Ht. reflexivity.
Qed.

(* ===================================================================== *)
(** ** MediaTypeFilter                                                    *)
(* ===================================================================== *)

(** C7.  Whatever the URL, the tweet record and the requested filter:
    [all] includes everything; [image] includes exactly the URLs on the
    image domain whose type is [photo]; [video] exactly the URLs on the
    video domain whose type is [video]; [gif] exactly the URLs on the
    video domain whose type is [animated_gif]; every other filter value
    excludes.  So a photo on the image domain passes [image] and fails
    [video] and [gif], and an animated gif on the video domain passes
    [gif] and fails [image] and [video]. *)
Theorem should_include_media_spec :
  forall (media_url : string) (tweet_data : dict) (media_type : string),
    (_should_include_media media_url tweet_data media_type = true <->
       media_type = "all"
       \/ (media_type = "image"
           /\ PyStr.contains TWITTER_IMAGE_DOMAIN media_url = true
           /\ dict_get "type" tweet_data = Some (PyStr "photo"))
       \/ (media_type = "video"
           /\ PyStr.contains TWITTER_VIDEO_DOMAIN media_url = true
           /\ dict_get "type" tweet_data = Some (PyStr "video"))
       \/ (media_type = "gif"
           /\ PyStr.contains TWITTER_VIDEO_DOMAIN media_url = true
           /\ dict_get "type" tweet_data = Some (PyStr "animated_gif")))
    /\ (PyStr.contains TWITTER_IMAGE_DOMAIN media_url = true ->
        dict_get "type" tweet_data = Some (PyStr "photo") ->
        _should_include_media media_url tweet_data "image" = true
        /\ _should_include_media media_url tweet_data "video" = false
        /\ _should_include_media media_url tweet_data "gif" = false)
    /\ (PyStr.contains TWITTER_VIDEO_DOMAIN media_url = true ->
        dict_get "type" tweet_data = Some (PyStr "animated_gif") ->
        _should_include_media media_url tweet_data "gif" = true
        /\ _should_include_media media_url tweet_data "image" = false
        /\ _should_include_media media_url tweet_data "video" = false).
Proof.
  intros media_url tweet_data media_type. split; [| split].
  - unfold _should_include_media.
    destruct (String.eqb media_type "all") eqn:Eall.
    { apply String.eqb_eq in Eall. split; auto. }
    destruct (String.eqb media_type "image") eqn:Eimg.
    { apply String.eqb_eq in Eimg. subst media_type.
      rewrite Bool.andb_true_iff, eq_str_true.
      split; [intros [H1 H2]; auto |].
      intros [H | [H | [[H _] | [H _]]]]; try discriminate H. exact (proj2 H). }
    destruct (String.eqb media_type "video") eqn:Evid.
    { apply String.eqb_eq in Evid. subst media_type.
      rewrite Bool.andb_true_iff, eq_str_true.
      split; [intros [H1 H2]; auto 6 |].
      intros [H | [[H _] | [H | [H _]]]]; try discriminate H. exact (proj2 H). }
    destruct (String.eqb media_type "gif") eqn:Egif.
    { apply String.eqb_eq in Egif. subst media_type.
      rewrite Bool.andb_true_iff, eq_str_true.
      split; [intros [H1 H2]; auto 8 |].
      intros [H | [[H _] | [[H _] | H]]]; try discriminate H. exact (proj2 H). }
    split; [discriminate |].
    apply String.eqb_neq in Eall, Eimg, Evid, Egif.
    intros [H | [[H _] | [[H _] | [H _]]]]; contradiction.
  - intros Hdom Hty. unfold _should_include_media. simpl.
    rewrite Hdom, Hty. simpl. repeat split;
      rewrite ?Bool.andb_false_r; reflexivity.
  - intros Hdom Hty. unfold _should_include_media. simpl.
    rewrite Hdom, Hty. simpl. repeat split;
      rewrite ?Bool.andb_false_r; reflexivity.
Qed.

(* ===================================================================== *)
(** ** TimelinePaginationEngine: the skip and the fetch                   *)
(* ===================================================================== *)

(** Advancing by [n] drops [n] items, provided the stream holds that
    many or ends with [StopIteration]. *)
Lemma skip_loop_drops (n : nat) :
  forall it : Iter,
    (n <= List.length (pending it))%nat \/ at_end it = None ->
    exists it', skip_loop n it = Returns it'
                /\ pending it' = skipn n (pending it)
                /\ at_end it' = at_end it.
Proof.
  induction n as [| n IH]; intros it H.
  - exists it. simpl. auto.
  - simpl. unfold next.
    destruct it as [[| [item c] rest] ending cur]; simpl in *.
    + destruct H as [H | H]; [lia |]. subst ending.
      eexists. split; [reflexivity |]. auto.
    + destruct (IH (mkIter rest ending c)) as (it' & H1 & H2 & H3).
      { simpl. destruct H as [H | H]; [left; lia | right; exact H]. }
      exists it'. auto.
Qed.

Lemma fetch_item_returns (now media_type : string) (item : Item)
      (c : CursorAttr) (st st' : Fetch) :
  fetch_item now media_type item c st = Returns st' ->
  items_fetched st' = (items_fetched st + 1)%Z
  /\ fetch_total_urls st'
     = (fetch_total_urls st + Z.of_nat (List.length (filter (passes media_type) [item])))%Z
  /\ new_timeline_entries st'
     = (new_timeline_entries st
        ++ map (entry_of now) (filter (passes media_type) [item]))%list.
Proof.
  unfold fetch_item. destruct item as [media_url tweet_data |]; simpl.
  - intros H. apply bind_returns in H. destruct H as (info & _ & H).
    destruct (_is_twitter_media media_url); simpl in *.
    + destruct (_should_include_media media_url tweet_data media_type);
        injection H as <-; simpl; rewrite ?app_nil_r; repeat split; lia.
    + injection H as <-; simpl; rewrite ?app_nil_r; repeat split; lia.
  - intros H. injection H as <-. simpl. rewrite app_nil_r. repeat split; lia.
Qed.

Lemma fetch_loop_returns (now media_type : string) (items_to_fetch : option Z)
      (at_end : option Exn) :
  forall (items : list (Item * CursorAttr)) (st f : Fetch),
    fetch_loop now media_type items_to_fetch items at_end st = Returns f ->
    let taken := firstn (consumed items_to_fetch st items) (map fst items) in
    items_fetched f
    = (items_fetched st + Z.of_nat (consumed items_to_fetch st items))%Z
    /\ fetch_total_urls f
       = (fetch_total_urls st
          + Z.of_nat (List.length (filter (passes media_type) taken)))%Z
    /\ new_timeline_entries f
       = (new_timeline_entries st
          ++ map (entry_of now) (filter (passes media_type) taken))%list.
Proof.
  induction items as [| [item c] rest IH]; intros st f H; simpl in H.
  - assert (f = st) as ->.
    { destruct items_to_fetch as [cap |];
        [destruct (items_fetched st <? cap)%Z |];
        try destruct at_end; congruence. }
    assert (consumed items_to_fetch st [] = 0%nat) as ->.
    { unfold consumed. destruct items_to_fetch; simpl; lia. }
    simpl. rewrite app_nil_r. repeat split; lia.
  - destruct (match items_to_fetch with
              | Some cap => (items_fetched st <? cap)%Z
              | None => true
              end) eqn:Hgo.
    + apply bind_returns in H. destruct H as (st' & Hitem & Hloop).
      apply fetch_item_returns in Hitem. destruct Hitem as (Hn & Ht & He).
      apply IH in Hloop. cbv zeta in Hloop. destruct Hloop as (Ln & Lt & Le).
      assert (Hc : consumed items_to_fetch st ((item, c) :: rest)
                   = S (consumed items_to_fetch st' rest)).
      { unfold consumed. destruct items_to_fetch as [cap |]; simpl List.length.
        - apply Z.ltb_lt in Hgo. rewrite Hn.
          replace (Z.to_nat (cap - items_fetched st))
            with (S (Z.to_nat (cap - (items_fetched st + 1)))) by lia.
          reflexivity.
        - reflexivity. }
      cbv zeta. rewrite Hc.
      change (firstn (S (consumed items_to_fetch st' rest))
                     (map fst ((item, c) :: rest)))
        with ([item] ++ firstn (consumed items_to_fetch st' rest) (map fst rest))%list.
      rewrite filter_app, map_app, length_app.
      rewrite Ln, Lt, Le, Hn, Ht, He. rewrite <- app_assoc.
      repeat split; lia.
    + injection H as <-.
      assert (consumed items_to_fetch st ((item, c) :: rest) = 0%nat) as ->.
      { unfold consumed. destruct items_to_fetch as [cap |]; [| discriminate].
        apply Z.ltb_ge in Hgo. simpl List.length. lia. }
      simpl. rewrite app_nil_r. repeat split; lia.
Qed.

(** The fetch phase, started from the iterator the skip left. *)
Lemma fetch_phase_returns (now media_type : string) (batch_size : Z)
      (iterator : Iter) (f : Fetch) :
  fetch_phase now media_type batch_size iterator = Returns f ->
  let n := List.length (pending iterator) in
  let k := if (batch_size >? 0)%Z
           then Nat.min (Z.to_nat batch_size) n else n in
  let taken := firstn k (map fst (pending iterator)) in
  items_fetched f = Z.of_nat k
  /\ fetch_total_urls f
     = Z.of_nat (List.length (filter (passes media_type) taken))
  /\ new_timeline_entries f = map (entry_of now) (filter (passes media_type) taken).
Proof.
  unfold fetch_phase. intros H. apply fetch_loop_returns in H.
  cbv zeta in *. simpl items_fetched in H. simpl fetch_total_urls in H.
  simpl new_timeline_entries in H.
  assert (Hk : consumed (if (batch_size >? 0)%Z then Some batch_size else None)
                        (mkFetch 0 [] [] 0 (_cursor iterator)) (pending iterator)
               = if (batch_size >? 0)%Z
                 then Nat.min (Z.to_nat batch_size) (List.length (pending iterator))
                 else List.length (pending iterator)).
  { destruct (batch_size >? 0)%Z; simpl; [rewrite Z.sub_0_r |]; reflexivity. }
  rewrite Hk in H. destruct H as (H1 & H2 & H3).
  repeat split; [rewrite H1 | rewrite H2 | rewrite H3]; (lia || reflexivity).
Qed.

(** Without a cursor token the skip of a later page drops
    [page * batch_size] items. *)
Lemma skip_phase_without_cursor (extractor : Extractor) (batch_size page : Z) :
  (0 < batch_size)%Z -> (0 < page)%Z ->
  cursor_set (cursor_at_iter extractor) = false ->
  (page * batch_size <= Z.of_nat (List.length (stream extractor)))%Z
  \/ stream_end extractor = None ->
  exists iterator,
    skip_phase extractor batch_size page = Returns iterator
    /\ pending iterator
       = skipn (Z.to_nat (page * batch_size)) (stream extractor)
    /\ at_end iterator = stream_end extractor.
Proof.
  intros Hb Hp Hc Hlen. unfold skip_phase.
  apply Z.gtb_lt in Hb, Hp. rewrite Hb, Hp, Hc. simpl andb. cbv iota.
  apply (skip_loop_drops (Z.to_nat (page * batch_size)) (iter extractor)).
  simpl. destruct Hlen as [H | H]; [left; lia | right; exact H].
Qed.

(** With a cursor token the skip is left out. *)
Lemma skip_phase_with_cursor (extractor : Extractor) (batch_size page : Z) :
  cursor_set (cursor_at_iter extractor) = true ->
  skip_phase extractor batch_size page = Returns (iter extractor).
Proof.
  intros Hc. unfold skip_phase. rewrite Hc.
  destruct ((batch_size >? 0)%Z && (page >? 0)%Z); reflexivity.
Qed.

Lemma error_boundary_is_error (e : Exn) (r : Result) :
  error_boundary e = Returns r -> is_error r = true.
Proof.
  unfold error_boundary. intros H.
  apply bind_returns in H. destruct H as (w & _ & H).
  destruct w; [| destruct (String.eqb (exn_str e) "None")];
    injection H as <-; reflexivity.
Qed.

Lemma guarded_success (body : Outcome Result) (r : Result) :
  try_except body error_boundary = Returns r -> is_error r = false ->
  body = Returns r.
Proof.
  destruct body as [r' | e]; simpl; intros H Hr; [exact H |].
  apply error_boundary_is_error in H. congruence.
Qed.

(** A timeline body that returns went through the skip, the fetch and
    the account-info check. *)
Lemma timeline_body_returns (P : Platform) (extractor : Extractor)
      (username : string) (batch_size page : Z) (media_type : string)
      (r : Result) :
  timeline_body P extractor username batch_size page media_type = Returns r ->
  exists iterator fetched,
    skip_phase extractor batch_size page = Returns iterator
    /\ fetch_phase (now P) media_type batch_size iterator = Returns fetched
    /\ result_total_urls r = Some (fetch_total_urls fetched)
    /\ result_timeline r = new_timeline_entries fetched
    /\ result_has_more r
       = Some ((batch_size >? 0)%Z && (items_fetched fetched =? batch_size)%Z).
Proof.
  unfold timeline_body. intros H.
  apply bind_returns in H. destruct H as (_ & _ & H).
  apply bind_returns in H. destruct H as (_ & _ & H).
  apply bind_returns in H. destruct H as (iterator & Hskip & H).
  apply bind_returns in H. destruct H as (fetched & Hfetch & H).
  exists iterator, fetched.
  destruct (negb (truthy (PyDict (fetch_account_info fetched))));
    [discriminate H |].
  injection H as <-. simpl. auto.
Qed.

Lemma search_loop_result (now : string) (at_end : option Exn) :
  forall (items : list (Item * CursorAttr)) (entries : list dict) (total : Z),
    fst (search_loop now items at_end entries total)
    = ((entries ++ map (entry_of now) (filter on_media_domain (map fst items)))%list,
       (total + Z.of_nat (List.length (filter on_media_domain (map fst items))))%Z).
Proof.
  induction items as [| [item c] rest IH]; intros entries total; simpl.
  - destruct at_end; simpl; rewrite app_nil_r, Z.add_0_r; reflexivity.
  - destruct item as [media_url tweet_data |]; simpl.
    + destruct (_is_twitter_media media_url); rewrite IH; simpl.
      * rewrite <- app_assoc. simpl. f_equal. lia.
      * reflexivity.
    + apply IH.
Qed.


(* ===================================================================== *)
(** ** The two entry points                                               *)
(* ===================================================================== *)

Section Calls.

Variable P : Platform.
Variables username auth_token : string.

(** The timeline call and its guarded region. *)
Variables (timeline_type : string) (batch_size page : Z)
          (media_type : string) (retweets : bool).

Let t_user := _parse_username username.
Let t_extractor :=
  timeline_extractor P t_user auth_token timeline_type batch_size retweets.
Let t_matches :=
  pattern_matches P (extractor_class_of timeline_type)
                  (timeline_url t_user timeline_type).
Let t_body := timeline_body P t_extractor t_user batch_size page media_type.
Let t_call :=
  get_metadata P username auth_token timeline_type batch_size page
               media_type retweets.

(** The search call and its guarded region. *)
Variables (date_start date_end media_filter : string)
          (output_file : option string).

Let s_query := search_query_of t_user date_start date_end media_filter.
Let s_extractor := search_extractor P auth_token s_query.
Let s_matches := pattern_matches P TwitterSearchExtractor (search_url s_query).
Let s_body := search_body P s_extractor t_user date_start date_end s_query.
Let s_call :=
  get_metadata_by_date P username auth_token date_start date_end media_filter
                       output_file.

Lemma get_metadata_guarded :
  t_matches = true -> t_call = try_except t_body error_boundary.
Proof.
  intros H. unfold t_call, get_metadata.
  fold t_user. fold t_matches. rewrite H. reflexivity.
Qed.

Lemma get_metadata_unmatched :
  t_matches = false ->
  t_call = Raises (ValueError ("Invalid URL for " ++ timeline_type ++ ": "
                               ++ timeline_url t_user timeline_type)).
Proof.
  intros H. unfold t_call, get_metadata.
  fold t_user. fold t_matches. rewrite H. reflexivity.
Qed.

Lemma get_metadata_by_date_guarded :
  s_matches = true -> s_call = try_except s_body error_boundary.
Proof.
  intros H. unfold s_call, get_metadata_by_date.
  fold t_user. fold s_query. fold s_matches. rewrite H. reflexivity.
Qed.

Lemma get_metadata_by_date_unmatched :
  s_matches = false ->
  s_call = Raises (ValueError ("Invalid search URL: " ++ search_url s_query)).
Proof.
  intros H. unfold s_call, get_metadata_by_date.
  fold t_user. fold s_query. fold s_matches. rewrite H. reflexivity.
Qed.

(** C1, as the code has it.  A URL the extractor's pattern rejects is
    raised to the caller as a [ValueError], from both entry points: the
    check stands before the guarded region.  Every failure raised inside
    the guarded region that the classifier can classify (it carries no
    [response] without [text]) comes back as [{"error": msg}]. *)
Theorem failures_become_error_results :
  (t_matches = false ->
   t_call = Raises (ValueError ("Invalid URL for " ++ timeline_type ++ ": "
                                ++ timeline_url t_user timeline_type)))
  /\ (t_matches = true ->
      forall e, t_body = Raises e -> classifiable e = true ->
                exists msg, t_call = Returns (ErrorResult msg))
  /\ (s_matches = false ->
      s_call = Raises (ValueError ("Invalid search URL: "
                                   ++ search_url s_query)))
  /\ (s_matches = true ->
      forall e, s_body = Raises e -> classifiable e = true ->
                exists msg, s_call = Returns (ErrorResult msg)).
Proof.
  split; [exact get_metadata_unmatched | split; [| split]].
  - intros Hm e He Hc. rewrite (get_metadata_guarded Hm), He. simpl.
    apply error_boundary_classifiable, Hc.
  - exact get_metadata_by_date_unmatched.
  - intros Hm e He Hc. rewrite (get_metadata_by_date_guarded Hm), He. simpl.
    apply error_boundary_classifiable, Hc.
Qed.

(** C9.  A failure reaching the boundary of either entry point whose
    message is exactly [None], and which the classifier does not take
    for a withheld account, is reported with the fixed
    authentication-failure message. *)
Theorem none_message_is_auth_failure (e : Exn) :
  exn_str e = "None" ->
  _is_withheld_error e = Returns false ->
  error_boundary e = Returns (ErrorResult ERROR_MSG_AUTH_FAILED)
  /\ (t_matches = true -> t_body = Raises e ->
      t_call = Returns (ErrorResult ERROR_MSG_AUTH_FAILED))
  /\ (s_matches = true -> s_body = Raises e ->
      s_call = Returns (ErrorResult ERROR_MSG_AUTH_FAILED)).
Proof.
  intros Hstr Hw.
  assert (Hb : error_boundary e = Returns (ErrorResult ERROR_MSG_AUTH_FAILED)).
  { unfold error_boundary. rewrite Hw. simpl. rewrite Hstr. reflexivity. }
  split; [exact Hb | split].
  - intros Hm He. rewrite (get_metadata_guarded Hm), He. exact Hb.
  - intros Hm He. rewrite (get_metadata_by_date_guarded Hm), He. exact Hb.
Qed.

(** C8.  When the account lookup of either entry point returns, without
    raising, a record whose [legacy] object has a truthy
    [withheld_scope], the call returns the fixed withheld message as its
    error. *)
Theorem withheld_scope_gives_withheld_message (user legacy : dict) (flag : PyVal) :
  dict_get "legacy" user = Some (PyDict legacy) ->
  dict_get "withheld_scope" legacy = Some flag ->
  truthy flag = true ->
  (t_matches = true ->
   initialize t_extractor = None ->
   (if PyStr.startswith "id:" t_user
    then user_by_rest_id t_extractor (PyStr.drop 3 t_user)
    else user_by_screen_name t_extractor t_user) = Returns user ->
   t_call = Returns (ErrorResult ERROR_MSG_WITHHELD))
  /\ (s_matches = true ->
      initialize s_extractor = None ->
      user_by_screen_name s_extractor t_user = Returns user ->
      s_call = Returns (ErrorResult ERROR_MSG_WITHHELD)).
Proof.
  intros Hl Hw Ht.
  pose proof (resolve_account_flagged user legacy flag Hl Hw Ht) as Hr.
  split.
  - intros Hm Hi Hu. rewrite (get_metadata_guarded Hm).
    unfold t_body, timeline_body, run_initialize.
    rewrite Hi. cbn [bind]. rewrite Hu, Hr. reflexivity.
  - intros Hm Hi Hu. rewrite (get_metadata_by_date_guarded Hm).
    unfold s_body, search_body, run_initialize.
    rewrite Hi. cbn [bind]. rewrite Hu, Hr. reflexivity.
Qed.

Lemma timeline_call_success (r : Result) :
  t_call = Returns r -> is_error r = false -> t_body = Returns r.
Proof.
  intros H Hr. destruct t_matches eqn:Hm.
  - rewrite (get_metadata_guarded Hm) in H. exact (guarded_success _ _ H Hr).
  - rewrite (get_metadata_unmatched Hm) in H. discriminate H.
Qed.

Lemma search_call_success (r : Result) :
  s_call = Returns r -> is_error r = false -> s_body = Returns r.
Proof.
  intros H Hr. destruct s_matches eqn:Hm.
  - rewrite (get_metadata_by_date_guarded Hm) in H.
    exact (guarded_success _ _ H Hr).
  - rewrite (get_metadata_by_date_unmatched Hm) in H. discriminate H.
Qed.

(** C3, as the code has it.  With [page > 0] and [batch_size > 0]:
    when the extractor holds a cursor token as iteration starts, no
    item is skipped and the fetch begins at the first item; otherwise
    the iterator is advanced by [page * batch_size] items, which are
    discarded (all of them, when the stream holds that many; to its
    end, when a shorter stream stops). *)
Theorem skip_unless_cursor (extractor : Extractor) :
  (0 < batch_size)%Z -> (0 < page)%Z ->
  (cursor_set (cursor_at_iter extractor) = true ->
   skip_phase extractor batch_size page = Returns (iter extractor))
  /\ (cursor_set (cursor_at_iter extractor) = false ->
      (page * batch_size <= Z.of_nat (List.length (stream extractor)))%Z
      \/ stream_end extractor = None ->
      exists iterator,
        skip_phase extractor batch_size page = Returns iterator
        /\ pending iterator
           = skipn (Z.to_nat (page * batch_size)) (stream extractor)
        /\ at_end iterator = stream_end extractor).
Proof.
  intros Hb Hp. split.
  - apply skip_phase_with_cursor.
  - apply skip_phase_without_cursor; assumption.
Qed.

(** C4.  In a successful timeline call [has_more] is true exactly when
    [batch_size > 0] and the fetch phase, run on what the skip left,
    took exactly [batch_size] items; the number it takes is the smaller
    of the cap and what was left, so [has_more] is false when fewer
    items than the cap were left, and false when [batch_size = 0]. *)
Theorem has_more_iff_batch_filled (r : Result) :
  t_call = Returns r -> is_error r = false ->
  exists iterator fetched,
    skip_phase t_extractor batch_size page = Returns iterator
    /\ fetch_phase (now P) media_type batch_size iterator = Returns fetched
    /\ items_fetched fetched
       = Z.of_nat (if (batch_size >? 0)%Z
                   then Nat.min (Z.to_nat batch_size)
                                (List.length (pending iterator))
                   else List.length (pending iterator))
    /\ (result_has_more r = Some true
        <-> (0 < batch_size)%Z /\ items_fetched fetched = batch_size)
    /\ ((0 < batch_size)%Z ->
        (Z.of_nat (List.length (pending iterator)) < batch_size)%Z ->
        result_has_more r = Some false)
    /\ (batch_size = 0%Z -> result_has_more r = Some false).
Proof.
  intros H Hr. apply (timeline_call_success r H) in Hr.
  apply timeline_body_returns in Hr.
  destruct Hr as (iterator & fetched & Hskip & Hfetch & _ & _ & Hmore).
  exists iterator, fetched.
  pose proof (fetch_phase_returns _ _ _ _ _ Hfetch) as (Hn & _ & _).
  cbv zeta in Hn.
  split; [exact Hskip | split; [exact Hfetch | split; [exact Hn |]]].
  rewrite Hmore. split; [| split].
  - split.
    + intros E. injection E as E. apply Bool.andb_true_iff in E.
      destruct E as [E1 E2]. apply Z.gtb_lt in E1. apply Z.eqb_eq in E2. auto.
    + intros [E1 E2]. apply Z.gtb_lt in E1. apply Z.eqb_eq in E2.
      rewrite E1, E2. reflexivity.
  - intros Hb Hlt. apply Z.gtb_lt in Hb. rewrite Hb in Hn |- *.
    assert ((items_fetched fetched =? batch_size)%Z = false) as ->
        by (apply Z.eqb_neq; lia).
    reflexivity.
  - intros ->. reflexivity.
Qed.



End Calls.

(** C2, as the code has it.  With [batch_size = 100] and [page = 2], no
    cursor token on the extractor, and a stream of fewer than 200 items
    that ends normally: the skip exhausts the stream without error, the
    fetch finds nothing, no account info is ever populated, and the call
    returns the account-not-found error. *)
Theorem page_past_end_is_account_not_found
        (P : Platform) (username auth_token timeline_type media_type : string)
        (retweets : bool) (user : dict) :
  let name := _parse_username username in
  let extractor :=
    timeline_extractor P name auth_token timeline_type 100 retweets in
  pattern_matches P (extractor_class_of timeline_type)
                  (timeline_url name timeline_type) = true ->
  initialize extractor = None ->
  resolve_account
    (if PyStr.startswith "id:" name
     then user_by_rest_id extractor (PyStr.drop 3 name)
     else user_by_screen_name extractor name) = Returns user ->
  cursor_set (cursor_at_iter extractor) = false ->
  (List.length (stream extractor) < 200)%nat ->
  stream_end extractor = None ->
  (exists iterator,
      skip_phase extractor 100 2 = Returns iterator
      /\ pending iterator = []
      /\ exists fetched,
          fetch_phase (now P) media_type 100 iterator = Returns fetched
          /\ new_timeline_entries fetched = []
          /\ fetch_account_info fetched = [])
  /\ get_metadata P username auth_token timeline_type 100 2 media_type retweets
     = Returns (ErrorResult ERROR_MSG_ACCOUNT_NOT_FOUND).
Proof.
  intros name extractor Hm Hi Hu Hc Hlen Hend.
  destruct (skip_phase_without_cursor extractor 100 2 eq_refl eq_refl Hc
                                      (or_intror Hend))
    as (iterator & Hs & Hp & He).
  rewrite skipn_all2 in Hp by (simpl; lia). rewrite Hend in He.
  assert (Hf : fetch_phase (now P) media_type 100 iterator
               = Returns (mkFetch 0 [] [] 0 (_cursor iterator))).
  { unfold fetch_phase. rewrite Hp, He. reflexivity. }
  split.
  - exists iterator. split; [exact Hs | split; [exact Hp |]].
    eexists. split; [exact Hf | split; reflexivity].
  - rewrite (get_metadata_guarded _ _ _ _ _ _ _ _ Hm).
    fold name. fold extractor.
    unfold timeline_body, run_initialize. rewrite Hi. cbn [bind].
    rewrite Hu. cbn [bind]. rewrite Hs. cbn [bind]. rewrite Hf.
    reflexivity.
Qed.

(* ===================================================================== *)
(** ** Sample runs                                                        *)
(* ===================================================================== *)

(** The explicit id form is returned unchanged. *)
Example parse_id_form : _parse_username "id:123456789" = "id:123456789".
Proof. reflexivity. Qed.

(** The query of a date-range call with the default filter clause. *)
Example default_search_query :
  search_query_of (_parse_username "@Handle") "2024-01-01" "2024-12-31"
                  "filter:media"
  = "from:handle since:2024-01-01 until:2024-12-31 filter:media".
Proof. reflexivity. Qed.

(** An unbounded timeline call keeps every media item, in stream order. *)
Example unbounded_timeline_call :
  exists info meta,
    get_metadata Sample.healthy "HANDLE" "token" "media" 0 0 "all" false
    = Returns (TimelineResult info 3
                 (map (entry_of (now Sample.healthy))
                      [Sample.photo 1; Sample.video 2; Sample.photo 3])
                 meta)
    /\ has_more meta = false.
Proof. do 2 eexists. split; vm_compute; reflexivity. Qed.

(** C1, counterexample.  A timeline kind outside the extractor's
    pattern: the call raises instead of returning an error dictionary. *)
Lemma unmatched_url_escapes :
  get_metadata Sample.healthy "@Handle" "token" "likes" 100 0 "all" false
  = Raises (ValueError "Invalid URL for likes: https://x.com/handle/likes").
Proof. vm_compute. reflexivity. Qed.

(** Missing credentials, in both modes. *)
Lemma none_message_is_auth_failure_witness :
  get_metadata Sample.unauthenticated "@Handle" "token" "media" 100 0 "all" false
  = Returns (ErrorResult ERROR_MSG_AUTH_FAILED)
  /\ get_metadata_by_date Sample.unauthenticated "@Handle" "token"
                          "2024-01-01" "2024-12-31" "filter:media" None
     = Returns (ErrorResult ERROR_MSG_AUTH_FAILED).
Proof.
  destruct (none_message_is_auth_failure
              Sample.unauthenticated "@Handle" "token" "media" 100 0 "all"
              false "2024-01-01" "2024-12-31" "filter:media" None
              (mkExn false "None" NoResponseAttr) eq_refl eq_refl)
    as (_ & Ht & Hs).
  split; [apply Ht | apply Hs]; reflexivity.
Defined.

(** A record flagged [Suspended], in both modes. *)
Lemma withheld_scope_gives_withheld_message_witness :
  get_metadata Sample.withheld "@Handle" "token" "media" 100 0 "all" false
  = Returns (ErrorResult ERROR_MSG_WITHHELD)
  /\ get_metadata_by_date Sample.withheld "@Handle" "token"
                          "2024-01-01" "2024-12-31" "filter:media" None
     = Returns (ErrorResult ERROR_MSG_WITHHELD).
Proof.
  destruct (withheld_scope_gives_withheld_message
              Sample.withheld "@Handle" "token" "media" 100
              0 "all" false "2024-01-01" "2024-12-31" "filter:media" None
              [("rest_id", PyStr "42");
               ("legacy", PyDict [("withheld_scope", PyStr "Suspended")])]
              [("withheld_scope", PyStr "Suspended")] (PyStr "Suspended")
              eq_refl eq_refl eq_refl)
    as (Ht & Hs).
  split; [apply Ht | apply Hs]; reflexivity.
Defined.

(** C10, at the failing input.  A transport failure carries
    [response = None]; the classifier reads [error.response.text] and
    raises [AttributeError] instead of returning a boolean.  When such a
    failure ends the stream of a timeline call, the classifier runs in
    the outer handler and its own failure leaves [get_metadata]. *)
Theorem is_withheld_error_raises_without_text :
  _is_withheld_error Sample.connection_error
  = Raises (AttributeError "NoneType" "text")
  /\ get_metadata Sample.broken_stream "@Handle" "token" "media" 0 0 "all" false
     = Raises (AttributeError "NoneType" "text").
Proof. split; vm_compute; reflexivity. Qed.

(** C2, counterexample.  Page 2 of batches of 100 over a stream of three
    items: the result carries an error field. *)
Lemma page_past_end_has_error_field :
  (List.length (stream (timeline_extractor Sample.healthy "handle" "token"
                                           "timeline" 100 false)) < 200)%nat
  /\ get_metadata Sample.healthy "@Handle" "token" "timeline" 100 2 "all" false
     = Returns (ErrorResult ERROR_MSG_ACCOUNT_NOT_FOUND).
Proof. split; [simpl; lia | vm_compute; reflexivity]. Qed.

(** The same for the healthy stream under the [image] filter. *)
Lemma page_past_end_is_account_not_found_witness :
  get_metadata Sample.healthy "@Handle" "token" "timeline" 100 2 "image" false
  = Returns (ErrorResult ERROR_MSG_ACCOUNT_NOT_FOUND).
Proof.
  refine (proj2 (page_past_end_is_account_not_found
                   Sample.healthy "@Handle" "token" "timeline" "image" false
                   [("rest_id", PyStr "42")] eq_refl eq_refl eq_refl eq_refl
                   _ eq_refl)).
  simpl. lia.
Defined.

(** C3, counterexample.  Page 1 of batches of 1 while the extractor
    holds a cursor token: nothing is skipped, and the call returns the
    first item of the stream, the one page 0 returns. *)
Lemma cursor_token_suppresses_skip :
  let extractor :=
    timeline_extractor Sample.with_cursor "handle" "token" "timeline" 1 false in
  skip_phase extractor 1 1 = Returns (iter extractor)
  /\ pending (iter extractor) <> skipn 1 (stream extractor)
  /\ exists r,
      get_metadata Sample.with_cursor "@Handle" "token" "timeline" 1 1 "all" false
      = Returns r
      /\ result_timeline r
         = [entry_of (now Sample.with_cursor) (Sample.photo 1)].
Proof.
  split; [reflexivity | split; [discriminate |]].
  eexists. split; vm_compute; reflexivity.
Qed.

(** Without a cursor, page 2 of batches of 1 drops two items. *)
Lemma skip_unless_cursor_witness :
  let extractor :=
    timeline_extractor Sample.healthy "handle" "token" "timeline" 1 false in
  exists iterator,
    skip_phase extractor 1 2 = Returns iterator
    /\ pending iterator = skipn 2 (stream extractor)
    /\ at_end iterator = stream_end extractor.
Proof.
  intros extractor.
  exact (proj2 (skip_unless_cursor 1 2 extractor eq_refl eq_refl)
               eq_refl (or_intror eq_refl)).
Defined.

(** The second page of batches of 1 fills its batch. *)
Lemma has_more_iff_batch_filled_witness :
  exists iterator fetched,
    skip_phase (timeline_extractor Sample.healthy "handle" "token" "timeline"
                                   1 false) 1 1 = Returns iterator
    /\ fetch_phase (now Sample.healthy) "all" 1 iterator = Returns fetched
    /\ items_fetched fetched
       = Z.of_nat (Nat.min 1 (List.length (pending iterator)))
    /\ (result_has_more Sample.second_page = Some true
        <-> (0 < 1)%Z /\ items_fetched fetched = 1%Z)
    /\ ((0 < 1)%Z ->
        (Z.of_nat (List.length (pending iterator)) < 1)%Z ->
        result_has_more Sample.second_page = Some false)
    /\ (1%Z = 0%Z -> result_has_more Sample.second_page = Some false).
Proof.
  exact (has_more_iff_batch_filled
           Sample.healthy "@Handle" "token" "timeline" 1 1 "all" false
           Sample.second_page eq_refl eq_refl).
Defined.


(* ===================================================================== *)
(** ** UsernameResolver: further properties                               *)
(* ===================================================================== *)

Lemma lower_char_idem (c : ascii) :
  PyStr.lower_char (PyStr.lower_char c) = PyStr.lower_char c.
Proof. all_ascii c; vm_compute; reflexivity. Qed.

Lemma lower_idem (s : string) : PyStr.lower (PyStr.lower s) = PyStr.lower s.
Proof.
  induction s as [| c s IH]; simpl; [reflexivity |].
  rewrite lower_char_idem, IH. reflexivity.
Qed.

Lemma lower_char_at (c : ascii) :
  Ascii.eqb "@" (PyStr.lower_char c) = Ascii.eqb "@" c.
Proof. all_ascii c; vm_compute; reflexivity. Qed.

Lemma outside_lower_char (c : ascii) :
  outside "/?#" (PyStr.lower_char c) = outside "/?#" c.
Proof. all_ascii c; vm_compute; reflexivity. Qed.

Lemma startswith_at_lower (s : string) :
  PyStr.startswith "@" (PyStr.lower s) = PyStr.startswith "@" s.
Proof.
  destruct s as [| c s]; [reflexivity |]. cbn [PyStr.lower PyStr.startswith].
  rewrite lower_char_at. reflexivity.
Qed.

Lemma lstrip_at_done (s : string) :
  PyStr.startswith "@" (PyStr.lstrip_chars "@" s) = false.
Proof.
  unfold PyStr.lstrip_chars.
  induction s as [| c s IH]; [reflexivity |]. cbn [PyStr.drop_while].
  destruct (PyStr.mem c "@") eqn:E; [exact IH |].
  cbn [PyStr.startswith]. rewrite Bool.andb_true_r.
  unfold PyStr.mem in E. simpl in E. rewrite Bool.orb_false_r in E.
  rewrite Ascii.eqb_sym. exact E.
Qed.

(** The two exits of the resolver past the id form. *)
Lemma parse_username_cases (s : string) :
  PyStr.startswith "id:" s = false ->
  exists name, _parse_username s = PyStr.lower (PyStr.lstrip_chars "@" name).
Proof.
  intros H. unfold _parse_username. rewrite H.
  destruct (first_match url_patterns (PyStr.strip s)); eauto.
Qed.

(** X1.  Past the id form the resolver always answers in lower case,
    and its answer never starts with [@]. *)
Theorem resolved_name_is_lower_without_at (s : string) :
  PyStr.startswith "id:" s = false ->
  PyStr.lower (_parse_username s) = _parse_username s
  /\ PyStr.startswith "@" (_parse_username s) = false.
Proof.
  intros H. destruct (parse_username_cases s H) as (name & ->).
  split; [apply lower_idem |].
  rewrite startswith_at_lower. apply lstrip_at_done.
Qed.

(** *** Surrounding white space *)

Lemma all_chars_rev (q : ascii -> bool) (s : string) :
  all_chars q (PyStr.rev s) = all_chars q s.
Proof.
  induction s as [| c s IH]; [reflexivity |].
  rewrite rev_cons, all_chars_app, IH. simpl.
  rewrite Bool.andb_true_r. apply Bool.andb_comm.
Qed.

Lemma drop_while_all (q : ascii -> bool) (w x : string) :
  all_chars q w = true -> PyStr.drop_while q (w ++ x) = PyStr.drop_while q x.
Proof.
  induction w as [| c w IH]; simpl; [reflexivity |]. intros H.
  apply Bool.andb_true_iff in H. destruct H as [Hc Hw].
  rewrite Hc. exact (IH Hw).
Qed.

Lemma rstrip_space_after (x w : string) :
  all_chars PyStr.is_space w = true -> PyStr.rstrip (x ++ w) = PyStr.rstrip x.
Proof.
  intros H. unfold PyStr.rstrip. rewrite rev_app, drop_while_all; [reflexivity |].
  rewrite all_chars_rev. exact H.
Qed.

Lemma drop_while_keeps (q : ascii -> bool) (s w : string) :
  PyStr.drop_while q s <> "" ->
  PyStr.drop_while q (s ++ w) = PyStr.drop_while q s ++ w.
Proof.
  induction s as [| c s IH]; simpl; [contradiction |].
  destruct (q c); [exact IH | reflexivity].
Qed.

Lemma drop_while_empty (q : ascii -> bool) (s : string) :
  PyStr.drop_while q s = "" -> all_chars q s = true.
Proof.
  induction s as [| c s IH]; simpl; [reflexivity |].
  destruct (q c); [exact IH | discriminate].
Qed.

(** [strip] does not see white space around its argument. *)
Lemma strip_space_around (w1 s w2 : string) :
  all_chars PyStr.is_space w1 = true -> all_chars PyStr.is_space w2 = true ->
  PyStr.strip (w1 ++ s ++ w2) = PyStr.strip s.
Proof.
  intros H1 H2. unfold PyStr.strip, PyStr.lstrip.
  rewrite (drop_while_all _ w1 _ H1).
  destruct (PyStr.drop_while PyStr.is_space s) as [| c r] eqn:E.
  - apply drop_while_empty in E.
    assert (A : all_chars PyStr.is_space (s ++ w2) = true)
      by (rewrite all_chars_app, E, H2; reflexivity).
    rewrite <- (append_nil_r (s ++ w2)), (drop_while_all _ _ "" A).
    reflexivity.
  - rewrite drop_while_keeps by (rewrite E; discriminate).
    rewrite E. apply rstrip_space_after, H2.
Qed.

Lemma space_is_not_in_id (c : ascii) :
  PyStr.is_space c = true ->
  Ascii.eqb "i" c = false /\ Ascii.eqb "d" c = false /\ Ascii.eqb ":" c = false.
Proof.
  all_ascii c; vm_compute; intros H; try discriminate H; repeat split.
Qed.

Lemma id_form_after_space (c : ascii) (x : string) :
  PyStr.is_space c = true -> PyStr.startswith "id:" (String c x) = false.
Proof.
  intros H. cbn [PyStr.startswith].
  rewrite (proj1 (space_is_not_in_id c H)). reflexivity.
Qed.

Lemma id_form_before_space (s w : string) :
  all_chars PyStr.is_space w = true ->
  PyStr.startswith "id:" (s ++ w) = PyStr.startswith "id:" s.
Proof.
  intros H.
  assert (W : forall p a, In a ["i"; "d"; ":"]%char ->
                          PyStr.startswith (String a p) w = false).
  { intros p a Ha. destruct w as [| c w]; [reflexivity |].
    simpl in H. apply Bool.andb_true_iff in H. destruct H as [Hc _].
    destruct (space_is_not_in_id c Hc) as (Hi & Hd & Hcol).
    cbn [PyStr.startswith].
    destruct Ha as [<- | [<- | [<- | []]]];
      rewrite ?Hi, ?Hd, ?Hcol; reflexivity. }
  assert (C : forall a p b x, PyStr.startswith (String a p) (String b x)
                             = Ascii.eqb a b && PyStr.startswith p x)
    by reflexivity.
  destruct s as [| a [| b [| c s]]]; cbn [append].
  - rewrite W by (simpl; auto). reflexivity.
  - rewrite !C, W by (simpl; auto). reflexivity.
  - rewrite !C, W by (simpl; auto). reflexivity.
  - reflexivity.
Qed.

(** X2.  White space before and after the input does not change what
    the resolver answers, whatever the input (past the id form). *)
Theorem surrounding_space_is_ignored (w1 s w2 : string) :
  all_chars PyStr.is_space w1 = true -> all_chars PyStr.is_space w2 = true ->
  PyStr.startswith "id:" s = false ->
  _parse_username (w1 ++ s ++ w2) = _parse_username s.
Proof.
  intros H1 H2 Hs. unfold _parse_username.
  assert (Hid : PyStr.startswith "id:" (w1 ++ s ++ w2) = false).
  { destruct w1 as [| c w1].
    - cbn [append]. rewrite id_form_before_space; assumption.
    - simpl in H1. apply Bool.andb_true_iff in H1.
      apply id_form_after_space. exact (proj1 H1). }
  rewrite Hid, Hs, strip_space_around by assumption. reflexivity.
Qed.

(** *** The two patterns *)

Lemma try_lengths_mono {R1 R2} (s : string)
      (k1 : string -> string -> option R1) (k2 : string -> string -> option R2) :
  (forall g rest, k2 g rest <> None -> k1 g rest <> None) ->
  forall n, Re.try_lengths n s k2 <> None -> Re.try_lengths n s k1 <> None.
Proof.
  intros Hk. induction n as [| n IH]; cbn [Re.try_lengths]; [auto |].
  intros H.
  destruct (k1 (PyStr.take (S n) s) (PyStr.drop (S n) s)) eqn:E1; [discriminate |].
  destruct (k2 (PyStr.take (S n) s) (PyStr.drop (S n) s)) eqn:E2.
  - exfalso. apply (Hk _ _) in E1; [exact E1 | rewrite E2; discriminate].
  - exact (IH H).
Qed.

(** A continuation that succeeds wherever another one does makes the
    match succeed wherever the other one's does. *)
Lemma exec_mono {R1 R2} (r : Re.regex) :
  forall (s : string) (cap : option string)
         (k1 : string -> option string -> option R1)
         (k2 : string -> option string -> option R2),
    (forall s' cap', k2 s' cap' <> None -> k1 s' cap' <> None) ->
    Re.exec r s cap k2 <> None -> Re.exec r s cap k1 <> None.
Proof.
  induction r as [l | a IHa b IHb | a IHa b IHb | a IHa | chars];
    intros s cap k1 k2 Hk; cbn [Re.exec].
  - destruct (Re.strip_prefix_ci l s); [apply Hk | auto].
  - apply IHa. intros s' cap'. apply IHb, Hk.
  - intros H. destruct (Re.exec a s cap k1) eqn:E1; [discriminate |].
    destruct (Re.exec a s cap k2) eqn:E2.
    + exfalso. apply (IHa s cap k1 k2 Hk); [rewrite E2; discriminate | exact E1].
    + exact (IHb s cap k1 k2 Hk H).
  - intros H. destruct (Re.exec a s cap k1) eqn:E1; [discriminate |].
    destruct (Re.exec a s cap k2) eqn:E2.
    + exfalso. apply (IHa s cap k1 k2 Hk); [rewrite E2; discriminate | exact E1].
    + exact (Hk s cap H).
  - destruct (Re.span_not_in chars s) as [run rest].
    apply try_lengths_mono. intros g rest'. apply Hk.
Qed.

Definition group1_or_empty (cap : option string) : option string :=
  match cap with
  | Some g => Some g
  | None => Some ""
  end.

Lemma lower_char_is_at (c : ascii) :
  Ascii.eqb (PyStr.lower_char c) "@" = true -> c = "@"%char.
Proof. all_ascii c; vm_compute; intros H; try reflexivity; discriminate H. Qed.

(** Where [/@] and a name follow, [/] and a name follow. *)
Lemma at_tail_is_name_tail (s : string) (cap : option string) :
  Re.exec (Re.Seq (Re.Lit "/@") (Re.Group1NotIn "/?#")) s cap
          (fun _ c => group1_or_empty c) <> None ->
  Re.exec (Re.Seq (Re.Lit "/") (Re.Group1NotIn "/?#")) s cap
          (fun _ c => group1_or_empty c) <> None.
Proof.
  rewrite !exec_seq, !exec_lit.
  destruct s as [| c1 [| c2 rest]]; cbn [Re.strip_prefix_ci]; try (intros H; exact H).
  - destruct (Ascii.eqb (PyStr.lower_char c1) "/"); auto.
  - destruct (Ascii.eqb (PyStr.lower_char c1) "/"); [| auto].
    destruct (Ascii.eqb (PyStr.lower_char c2) "@") eqn:E; [| intros H; contradiction].
    apply lower_char_is_at in E. subst c2. intros _.
    cbn [Re.exec Re.span_not_in]. change (PyStr.mem "@" "/?#") with false. cbv iota.
    destruct (Re.span_not_in "/?#" rest) as [run rest'].
    cbn [String.length Re.try_lengths]. discriminate.
Qed.

(** X3.  The second URL pattern, the one with [/@], never decides:
    whatever the input, the loop over the two patterns answers what the
    first pattern alone answers, the [@] being taken by the first
    pattern's group and removed afterwards. *)
Theorem second_pattern_never_decides (s : string) :
  first_match url_patterns s
  = Re.match_group1
      (Re.Seq url_head (Re.Seq (Re.Lit "/") (Re.Group1NotIn "/?#"))) s.
Proof.
  unfold url_patterns. cbn [first_match].
  destruct (Re.match_group1
              (Re.Seq url_head (Re.Seq (Re.Lit "/") (Re.Group1NotIn "/?#"))) s)
    as [g |] eqn:E1; [reflexivity |].
  destruct (Re.match_group1
              (Re.Seq url_head (Re.Seq (Re.Lit "/@") (Re.Group1NotIn "/?#"))) s)
    as [g |] eqn:E2; [| reflexivity].
  exfalso. unfold Re.match_group1 in E1, E2. rewrite exec_seq in E1, E2.
  match type of E1 with
  | Re.exec _ _ _ ?k1 = _ =>
      match type of E2 with
      | Re.exec _ _ _ ?k2 = _ =>
          apply (exec_mono url_head s None k1 k2);
          [ intros s' cap'; apply at_tail_is_name_tail
          | rewrite E2; discriminate
          | exact E1 ]
      end
  end.
Qed.

(** *** What a matched URL yields *)

Lemma span_not_in_run (chars s : string) :
  all_chars (outside chars) (fst (Re.span_not_in chars s)) = true
  /\ s = fst (Re.span_not_in chars s) ++ snd (Re.span_not_in chars s).
Proof.
  induction s as [| c s [IH1 IH2]]; cbn [Re.span_not_in]; [auto |].
  destruct (PyStr.mem c chars) eqn:E; [auto |].
  destruct (Re.span_not_in chars s) as [run rest]. cbn [fst snd] in *.
  cbn [all_chars append]. unfold outside at 1. rewrite E, IH1, <- IH2. auto.
Qed.

Lemma take_of_run (q : ascii -> bool) (rest : string) :
  forall (n : nat) (run : string),
    (n <= String.length run)%nat -> all_chars q run = true ->
    all_chars q (PyStr.take n (run ++ rest)) = true.
Proof.
  induction n as [| n IH]; intros run Hn Hq; [reflexivity |].
  destruct run as [| c run]; [simpl in Hn; lia |].
  cbn [append PyStr.take all_chars] in *.
  apply Bool.andb_true_iff in Hq. destruct Hq as [Hc Hq].
  rewrite Hc, IH; [reflexivity | simpl in Hn; lia | exact Hq].
Qed.

Lemma try_lengths_some {R} (s : string) (k : string -> string -> option R)
      (x : R) :
  forall n, Re.try_lengths n s k = Some x ->
            exists m, (m <= n)%nat /\ k (PyStr.take m s) (PyStr.drop m s) = Some x.
Proof.
  induction n as [| n IH]; cbn [Re.try_lengths]; [discriminate |].
  destruct (k (PyStr.take (S n) s) (PyStr.drop (S n) s)) eqn:E.
  - intros H. injection H as <-. exists (S n). auto.
  - intros H. destruct (IH H) as (m & Hm & Hk). exists m. split; [lia | exact Hk].
Qed.

(** Every group of the pattern excludes [chars]. *)
Fixpoint groups_exclude (chars : string) (r : Re.regex) : bool :=
  match r with
  | Re.Lit _ => true
  | Re.Seq a b | Re.Alt a b => groups_exclude chars a && groups_exclude chars b
  | Re.Opt a => groups_exclude chars a
  | Re.Group1NotIn c => String.eqb c chars
  end.

Definition capture_outside (chars : string) (cap : option string) : bool :=
  match cap with
  | Some g => all_chars (outside chars) g
  | None => true
  end.

(** A successful match hands its continuation a capture free of the
    excluded characters. *)
Lemma exec_capture {R} (chars : string) (r : Re.regex) :
  groups_exclude chars r = true ->
  forall (s : string) (cap : option string)
         (k : string -> option string -> option R) (x : R),
    capture_outside chars cap = true ->
    Re.exec r s cap k = Some x ->
    exists s' cap', capture_outside chars cap' = true /\ k s' cap' = Some x.
Proof.
  induction r as [l | a IHa b IHb | a IHa b IHb | a IHa | c];
    cbn [groups_exclude Re.exec]; intros Hr s cap k x Hcap H.
  - destruct (Re.strip_prefix_ci l s) as [rest |]; [eauto | discriminate].
  - apply Bool.andb_true_iff in Hr. destruct Hr as [Ha Hb].
    destruct (IHa Ha _ _ _ _ Hcap H) as (s1 & cap1 & Hc1 & H1).
    exact (IHb Hb _ _ _ _ Hc1 H1).
  - apply Bool.andb_true_iff in Hr. destruct Hr as [Ha Hb].
    destruct (Re.exec a s cap k) eqn:E.
    + injection H as <-. exact (IHa Ha _ _ _ _ Hcap E).
    + exact (IHb Hb _ _ _ _ Hcap H).
  - destruct (Re.exec a s cap k) eqn:E.
    + injection H as <-. exact (IHa Hr _ _ _ _ Hcap E).
    + eauto.
  - apply String.eqb_eq in Hr. subst c.
    destruct (span_not_in_run chars s) as [Hrun Hs].
    destruct (Re.span_not_in chars s) as [run rest]. cbn [fst snd] in *.
    apply try_lengths_some in H. destruct H as (m & Hm & Hk).
    exists (PyStr.drop m s), (Some (PyStr.take m s)). split; [| exact Hk].
    cbn [capture_outside]. rewrite Hs. apply take_of_run; assumption.
Qed.

Lemma first_match_outside (s g : string) :
  first_match url_patterns s = Some g -> all_chars (outside "/?#") g = true.
Proof.
  unfold url_patterns. cbn [first_match]. unfold Re.match_group1.
  set (k := fun (_ : string) (cap : option string) =>
              match cap with Some g => Some g | None => Some "" end).
  assert (K : forall r, groups_exclude "/?#" r = true ->
                        forall g', Re.exec r s None k = Some g' ->
                                   all_chars (outside "/?#") g' = true).
  { intros r Hr g' H.
    destruct (exec_capture "/?#" r Hr s None k g' eq_refl H)
      as (s' & [g0 |] & Hc & Hk); unfold k in Hk; injection Hk as <-;
      [exact Hc | reflexivity]. }
  destruct (Re.exec _ s None k) as [g1 |] eqn:E1.
  - intros H. injection H as <-. eapply K; [| exact E1]. reflexivity.
  - destruct (Re.exec _ s None k) as [g2 |] eqn:E2 in |- *; [| discriminate].
    intros H. injection H as <-. eapply K; [| exact E2]. reflexivity.
Qed.

Lemma drop_while_all_chars (q p : ascii -> bool) (s : string) :
  all_chars q s = true -> all_chars q (PyStr.drop_while p s) = true.
Proof.
  induction s as [| c s IH]; simpl; [auto |]. intros H.
  destruct (p c); [| exact H].
  apply Bool.andb_true_iff in H. exact (IH (proj2 H)).
Qed.

Lemma lower_outside (s : string) :
  all_chars (outside "/?#") (PyStr.lower s) = all_chars (outside "/?#") s.
Proof.
  induction s as [| c s IH]; simpl; [reflexivity |].
  rewrite outside_lower_char, IH. reflexivity.
Qed.

(** X4.  When the input is recognised as a profile URL, the resolved
    name is the captured path segment without leading [@], in lower
    case, and holds none of [/], [?] and [#]. *)
Theorem url_name_has_no_delimiter (s g : string) :
  PyStr.startswith "id:" s = false ->
  first_match url_patterns (PyStr.strip s) = Some g ->
  _parse_username s = PyStr.lower (PyStr.lstrip_chars "@" g)
  /\ all_chars (outside "/?#") (_parse_username s) = true.
Proof.
  intros Hs Hm. unfold _parse_username. rewrite Hs, Hm.
  split; [reflexivity |].
  rewrite lower_outside. apply drop_while_all_chars.
  exact (first_match_outside _ _ Hm).
Qed.

(* ===================================================================== *)
(** ** Builders, domain test and classifier: further properties          *)
(* ===================================================================== *)

Lemma startswith_iff (p s : string) :
  PyStr.startswith p s = true <-> exists b, s = p ++ b.
Proof.
  revert s. induction p as [| a p IH]; intros s; cbn [PyStr.startswith].
  - split; [intros _; exists s; reflexivity | reflexivity].
  - destruct s as [| c s].
    + split; [discriminate | intros [b H]; discriminate H].
    + rewrite Bool.andb_true_iff, IH. split.
      * intros [E [b ->]]. apply Ascii.eqb_eq in E. subst c. exists b. reflexivity.
      * intros [b H]. injection H as -> ->. split; [apply Ascii.eqb_refl | eauto].
Qed.

(** [p in s] holds exactly when [p] occurs somewhere in [s]. *)
Lemma contains_iff (p s : string) :
  PyStr.contains p s = true <-> exists a b, s = a ++ p ++ b.
Proof.
  induction s as [| c s IH]; cbn [PyStr.contains].
  - rewrite Bool.orb_false_r, startswith_iff. split.
    + intros [b H]. exists "", b. exact H.
    + intros [a [b H]]. destruct a; [eauto | discriminate H].
  - rewrite Bool.orb_true_iff, startswith_iff, IH. split.
    + intros [[b H] | [a [b H]]].
      * exists "", b. exact H.
      * exists (String c a), b. rewrite H. reflexivity.
    + intros [[| d a] [b H]].
      * left. eauto.
      * right. injection H as -> ->. eauto.
Qed.

(** X5.  The media-domain test is a test for a substring: a URL passes
    exactly when one of the two domain names occurs somewhere in it, in
    this very spelling. *)
Theorem media_domain_test_is_substring_test (media_url : string) :
  _is_twitter_media media_url = true <->
  exists a b, media_url = a ++ "pbs.twimg.com" ++ b
              \/ media_url = a ++ "video.twimg.com" ++ b.
Proof.
  unfold _is_twitter_media. rewrite Bool.orb_true_iff, !contains_iff.
  unfold TWITTER_IMAGE_DOMAIN, TWITTER_VIDEO_DOMAIN. split.
  - intros [(a & b & H) | (a & b & H)]; exists a, b; auto.
  - intros (a & b & [H | H]); [left | right]; eauto.
Qed.

(** Whether the source record marks a retweet. *)
Definition marks_retweet (tweet_data : dict) : bool :=
  match dict_get "retweet_id" tweet_data with
  | Some r => truthy r
  | None => false
  end.

(** X6.  A timeline entry has the keys [url], [date], [tweet_id], then
    [type] when the record has one, then [retweet_id] when the record
    marks a retweet, then [is_retweet], each once; [is_retweet] is true
    exactly when the record holds a truthy [retweet_id], which is then
    copied, and absent from the entry otherwise; [tweet_id] defaults to
    0 and the date to the current time. *)
Theorem timeline_entry_shape (now media_url : string) (tweet_data : dict) :
  let entry := _build_timeline_entry now media_url tweet_data in
  map fst entry
  = (["url"; "date"; "tweet_id"]
     ++ (if dict_has "type" tweet_data then ["type"] else [])
     ++ (if marks_retweet tweet_data then ["retweet_id"] else [])
     ++ ["is_retweet"])%list
  /\ dict_get "url" entry = Some (PyStr media_url)
  /\ dict_get "date" entry
     = Some (_format_datetime
               (dict_get_default "date" (PyDatetime now) tweet_data))
  /\ dict_get "tweet_id" entry
     = Some (dict_get_default "tweet_id" (PyInt 0) tweet_data)
  /\ dict_get "type" entry = dict_get "type" tweet_data
  /\ dict_get "is_retweet" entry = Some (PyBool (marks_retweet tweet_data))
  /\ dict_get "retweet_id" entry
     = (if marks_retweet tweet_data then dict_get "retweet_id" tweet_data
        else None).
Proof.
  unfold _build_timeline_entry, marks_retweet, dict_has.
  destruct (dict_get "type" tweet_data) as [t |];
    destruct (dict_get "retweet_id" tweet_data) as [r |];
    try destruct (truthy r); cbv zeta; repeat split.
Qed.

(** The keys of an account-info record, in order. *)
Definition account_info_keys : list string :=
  [ "name"; "nick"; "date"; "followers_count"; "friends_count";
    "profile_image"; "statuses_count" ].

Lemma build_account_info_keys (user_data : PyVal) (info : dict) :
  _build_account_info user_data = Returns info ->
  map fst info = account_info_keys.
Proof.
  destruct user_data; simpl; intros H; try discriminate H.
  injection H as <-. reflexivity.
Qed.

Lemma withheld_marker_is_in_message (s : string) :
  String.eqb s WITHHELD_ERROR_CODE = true ->
  PyStr.contains WITHHELD_ERROR_CODE (PyStr.lower s) = true.
Proof. intros H. apply String.eqb_eq in H. subst s. reflexivity. Qed.

(** X7.  The classifier reads two texts only: the failure counts as
    withheld exactly when its message, or the text of its response,
    holds [withheld] in any mix of cases.  Whether the failure is a
    [ValueError] never changes the answer. *)
Theorem classifier_reads_texts_only (e : Exn) :
  _is_withheld_error e
  = match exn_response e with
    | NoResponseAttr =>
        Returns (PyStr.contains "withheld" (PyStr.lower (exn_str e)))
    | ResponseWithoutText ty => Raises (AttributeError ty "text")
    | ResponseText text =>
        Returns (PyStr.contains "withheld" (PyStr.lower (exn_str e))
                 || PyStr.contains "withheld" (PyStr.lower text))
    end.
Proof.
  unfold _is_withheld_error.
  assert (A : exn_is_value_error e && String.eqb (exn_str e) WITHHELD_ERROR_CODE
              || PyStr.contains WITHHELD_ERROR_CODE (PyStr.lower (exn_str e))
              = PyStr.contains WITHHELD_ERROR_CODE (PyStr.lower (exn_str e))).
  { destruct (String.eqb (exn_str e) WITHHELD_ERROR_CODE) eqn:E.
    - rewrite (withheld_marker_is_in_message _ E). apply Bool.orb_true_r.
    - rewrite Bool.andb_false_r. reflexivity. }
  destruct (exn_response e); cbn [bind]; rewrite ?A, ?Bool.orb_false_r;
    reflexivity.
Qed.

(* ===================================================================== *)
(** ** The engine: further properties                                     *)
(* ===================================================================== *)

Definition outcome_map {A B} (f : A -> B) (m : Outcome A) : Outcome B :=
  match m with
  | Returns a => Returns (f a)
  | Raises e => Raises e
  end.

Definition result_account_info (r : Result) : dict :=
  match r with
  | ErrorResult _ => []
  | TimelineResult a _ _ _ => a
  | SearchResult a _ _ _ _ _ => a
  end.

Definition result_new_entries (r : Result) : option Z :=
  match r with
  | ErrorResult _ => None
  | TimelineResult _ _ _ m => Some (new_entries m)
  | SearchResult _ _ _ _ _ m => Some (search_new_entries m)
  end.

(** The items a timeline call examines: past the offset of a later page
    unless a cursor token stands in for it, and no more than the cap. *)
Definition window (extractor : Extractor) (batch_size page : Z) : list Item :=
  let items := map fst (stream extractor) in
  let rest :=
    if (batch_size >? 0)%Z && (page >? 0)%Z
       && negb (cursor_set (cursor_at_iter extractor))
    then skipn (Z.to_nat (page * batch_size)) items
    else items in
  if (batch_size >? 0)%Z then firstn (Z.to_nat batch_size) rest else rest.

(** The item carries a user record. *)
Definition carries_user (item : Item) : bool :=
  match item with
  | Tuple3 _ tweet_data => dict_has "user" tweet_data
  | OtherItem => false
  end.

Definition user_of (item : Item) : PyVal :=
  match item with
  | Tuple3 _ tweet_data => dict_get_default "user" PyNone tweet_data
  | OtherItem => PyNone
  end.

Lemma skip_loop_returns (n : nat) :
  forall it it' : Iter,
    skip_loop n it = Returns it' ->
    pending it' = skipn n (pending it) /\ at_end it' = at_end it.
Proof.
  induction n as [| n IH]; intros it it' H; simpl in H.
  - injection H as <-. auto.
  - unfold next in H.
    destruct it as [[| [item c] rest] ending cur]; simpl in *.
    + destruct ending; [discriminate H |]. injection H as <-. auto.
    + apply IH in H. exact H.
Qed.

Lemma skip_phase_returns (extractor : Extractor) (batch_size page : Z)
      (iterator : Iter) :
  skip_phase extractor batch_size page = Returns iterator ->
  map fst (pending iterator)
  = (if (batch_size >? 0)%Z && (page >? 0)%Z
        && negb (cursor_set (cursor_at_iter extractor))
     then skipn (Z.to_nat (page * batch_size)) (map fst (stream extractor))
     else map fst (stream extractor))
  /\ at_end iterator = stream_end extractor.
Proof.
  unfold skip_phase.
  destruct ((batch_size >? 0)%Z && (page >? 0)%Z); cbn [andb].
  - destruct (cursor_set (cursor_at_iter extractor)); cbn [negb].
    + intros H. injection H as <-. auto.
    + intros H. apply skip_loop_returns in H. destruct H as [H1 H2].
      rewrite H1, skipn_map. auto.
  - intros H. injection H as <-. auto.
Qed.

Lemma firstn_min {A} (n : nat) (l : list A) :
  firstn (Nat.min n (List.length l)) l = firstn n l.
Proof.
  destruct (Nat.le_ge_cases n (List.length l)) as [H | H].
  - rewrite Nat.min_l by exact H. reflexivity.
  - rewrite Nat.min_r by exact H.
    rewrite firstn_all, firstn_all2; [reflexivity | exact H].
Qed.

(** What the two phases examine is the window. *)
Lemma fetch_phase_window (extractor : Extractor) (now media_type : string)
      (batch_size page : Z) (iterator : Iter) (f : Fetch) :
  skip_phase extractor batch_size page = Returns iterator ->
  fetch_phase now media_type batch_size iterator = Returns f ->
  new_timeline_entries f
  = map (entry_of now) (filter (passes media_type)
                               (window extractor batch_size page))
  /\ fetch_total_urls f = Z.of_nat (List.length (new_timeline_entries f)).
Proof.
  intros Hs Hf. apply skip_phase_returns in Hs. destruct Hs as [Hs _].
  apply fetch_phase_returns in Hf. cbv zeta in Hf.
  destruct Hf as (_ & Ht & He).
  assert (W : (if (batch_size >? 0)%Z
               then firstn (Nat.min (Z.to_nat batch_size)
                                    (List.length (pending iterator)))
                           (map fst (pending iterator))
               else firstn (List.length (pending iterator))
                           (map fst (pending iterator)))
              = window extractor batch_size page).
  { unfold window. rewrite <- Hs.
    rewrite <- (length_map fst (pending iterator)).
    destruct (batch_size >? 0)%Z; [apply firstn_min | apply firstn_all]. }
  destruct (batch_size >? 0)%Z; rewrite W in *;
    rewrite Ht, He, length_map; auto.
Qed.

(** A timeline body that returns, in full. *)
Lemma timeline_body_shape (P : Platform) (extractor : Extractor)
      (username : string) (batch_size page : Z) (media_type : string)
      (r : Result) :
  timeline_body P extractor username batch_size page media_type = Returns r ->
  exists iterator fetched,
    skip_phase extractor batch_size page = Returns iterator
    /\ fetch_phase (now P) media_type batch_size iterator = Returns fetched
    /\ fetch_account_info fetched <> []
    /\ r = TimelineResult
             (fetch_account_info fetched) (fetch_total_urls fetched)
             (new_timeline_entries fetched)
             (mkPaginationMetadata
                (Z.of_nat (List.length (new_timeline_entries fetched)))
                page batch_size
                ((batch_size >? 0)%Z && (items_fetched fetched =? batch_size)%Z)
                (match fetch_cursor fetched with
                 | Some c => if truthy c then c else PyNone
                 | None => PyNone
                 end)).
Proof.
  unfold timeline_body. intros H.
  apply bind_returns in H. destruct H as (_ & _ & H).
  apply bind_returns in H. destruct H as (_ & _ & H).
  apply bind_returns in H. destruct H as (iterator & Hskip & H).
  apply bind_returns in H. destruct H as (fetched & Hfetch & H).
  exists iterator, fetched.
  destruct (fetch_account_info fetched) as [| kv info] eqn:E;
    [discriminate H |].
  cbn in H. injection H as <-.
  repeat split; try assumption. discriminate.
Qed.

(** *** The account info a fetch ends with *)

Lemma fetch_item_account (now media_type : string) (item : Item)
      (c : CursorAttr) (st st' : Fetch) :
  fetch_item now media_type item c st = Returns st' ->
  (fetch_account_info st <> [] ->
   fetch_account_info st' = fetch_account_info st)
  /\ (fetch_account_info st = [] -> carries_user item = false ->
      fetch_account_info st' = [])
  /\ (fetch_account_info st = [] -> carries_user item = true ->
      _build_account_info (user_of item) = Returns (fetch_account_info st')).
Proof.
  unfold fetch_item. destruct item as [media_url tweet_data |];
    cbn [fetch_account_info carries_user user_of].
  - intros H. apply bind_returns in H. destruct H as (info & Hinfo & H).
    assert (E : fetch_account_info st' = info).
    { destruct (_is_twitter_media media_url);
        [destruct (_should_include_media media_url tweet_data media_type) |];
        injection H as <-; reflexivity. }
    rewrite E. clear H E.
    destruct (fetch_account_info st) as [| kv a]; cbn in Hinfo.
    + destruct (dict_has "user" tweet_data).
      * repeat split; intros; congruence.
      * injection Hinfo as <-. repeat split; intros; congruence.
    + injection Hinfo as <-. repeat split; intros; congruence.
  - intros H. injection H as <-. cbn. repeat split; intros; congruence.
Qed.

Lemma build_account_info_populated (user_data : PyVal) (info : dict) :
  _build_account_info user_data = Returns info -> info <> [].
Proof.
  intros H. apply build_account_info_keys in H. intros ->. discriminate H.
Qed.

(** The account info is set once, from the first examined item that
    carries a user record. *)
Lemma fetch_loop_account (now media_type : string) (items_to_fetch : option Z)
      (at_end : option Exn) :
  forall (items : list (Item * CursorAttr)) (st f : Fetch),
    fetch_loop now media_type items_to_fetch items at_end st = Returns f ->
    let taken := firstn (consumed items_to_fetch st items) (map fst items) in
    (fetch_account_info st <> [] ->
     fetch_account_info f = fetch_account_info st)
    /\ (fetch_account_info st = [] ->
        match find carries_user taken with
        | Some item =>
            _build_account_info (user_of item) = Returns (fetch_account_info f)
        | None => fetch_account_info f = []
        end).
Proof.
  induction items as [| [item c] rest IH]; intros st f H; simpl in H.
  - assert (f = st) as ->.
    { destruct items_to_fetch as [cap |];
        [destruct (items_fetched st <? cap)%Z |];
        try destruct at_end; congruence. }
    cbv zeta. rewrite firstn_nil. cbn. auto.
  - destruct (match items_to_fetch with
              | Some cap => (items_fetched st <? cap)%Z
              | None => true
              end) eqn:Hgo.
    + apply bind_returns in H. destruct H as (st' & Hitem & Hloop).
      pose proof (fetch_item_returns _ _ _ _ _ _ Hitem) as (Hn & _ & _).
      apply fetch_item_account in Hitem. destruct Hitem as (Hkeep & Hnone & Hset).
      apply IH in Hloop. cbv zeta in Hloop. destruct Hloop as (Lkeep & Lfind).
      assert (Hc : consumed items_to_fetch st ((item, c) :: rest)
                   = S (consumed items_to_fetch st' rest)).
      { unfold consumed. destruct items_to_fetch as [cap |]; simpl List.length.
        - apply Z.ltb_lt in Hgo. rewrite Hn.
          replace (Z.to_nat (cap - items_fetched st))
            with (S (Z.to_nat (cap - (items_fetched st + 1)))) by lia.
          reflexivity.
        - reflexivity. }
      cbv zeta. rewrite Hc. cbn [map fst firstn find]. split.
      * intros Hne. rewrite Lkeep; rewrite (Hkeep Hne); [reflexivity | exact Hne].
      * intros Hemp. destruct (carries_user item) eqn:Hu.
        -- pose proof (Hset Hemp eq_refl) as Hb.
           rewrite Lkeep; [exact Hb |].
           exact (build_account_info_populated _ _ Hb).
        -- apply Lfind. exact (Hnone Hemp eq_refl).
    + injection H as <-.
      assert (consumed items_to_fetch st ((item, c) :: rest) = 0%nat) as ->.
      { unfold consumed. destruct items_to_fetch as [cap |]; [| discriminate].
        apply Z.ltb_ge in Hgo. simpl List.length. lia. }
      cbn. auto.
Qed.

Lemma taken_is_window (extractor : Extractor) (batch_size page : Z)
      (iterator : Iter) :
  skip_phase extractor batch_size page = Returns iterator ->
  firstn (consumed (if (batch_size >? 0)%Z then Some batch_size else None)
                   (mkFetch 0 [] [] 0 (_cursor iterator)) (pending iterator))
         (map fst (pending iterator))
  = window extractor batch_size page.
Proof.
  intros Hs. apply skip_phase_returns in Hs. destruct Hs as [Hs _].
  unfold window, consumed. rewrite <- Hs.
  rewrite <- (length_map fst (pending iterator)).
  destruct (batch_size >? 0)%Z; cbn [items_fetched].
  - rewrite Z.sub_0_r. apply firstn_min.
  - apply firstn_all.
Qed.

(** A stream that ends in a failure fails an uncapped fetch. *)
Lemma uncapped_fetch_fails (now media_type : string) (e : Exn) :
  forall (items : list (Item * CursorAttr)) (st f : Fetch),
    fetch_loop now media_type None items (Some e) st <> Returns f.
Proof.
  induction items as [| [item c] rest IH]; intros st f; simpl.
  - discriminate.
  - destruct (fetch_item now media_type item c st) as [st' | e']; simpl;
      [apply IH | discriminate].
Qed.

(** Items without a user record leave the account info empty. *)
Lemma fetch_loop_without_user (now media_type : string)
      (items_to_fetch : option Z) :
  forall (items : list (Item * CursorAttr)) (st : Fetch),
    fetch_account_info st = [] ->
    forallb (fun item => negb (carries_user item))
            (firstn (consumed items_to_fetch st items) (map fst items)) = true ->
    exists f,
      fetch_loop now media_type items_to_fetch items None st = Returns f
      /\ fetch_account_info f = [].
Proof.
  induction items as [| [item c] rest IH]; intros st Hst Hall; simpl.
  - exists st. split; [| exact Hst].
    destruct items_to_fetch as [cap |];
      [destruct (items_fetched st <? cap)%Z |]; reflexivity.
  - destruct (match items_to_fetch with
              | Some cap => (items_fetched st <? cap)%Z
              | None => true
              end) eqn:Hgo; [| exists st; auto].
    assert (Hc : consumed items_to_fetch st ((item, c) :: rest)
                 = S (consumed items_to_fetch
                               (mkFetch (items_fetched st + 1)
                                        (fetch_account_info st)
                                        (new_timeline_entries st)
                                        (fetch_total_urls st) c) rest)).
    { unfold consumed. destruct items_to_fetch as [cap |]; simpl List.length.
      - apply Z.ltb_lt in Hgo. cbn [items_fetched].
        replace (Z.to_nat (cap - items_fetched st))
          with (S (Z.to_nat (cap - (items_fetched st + 1)))) by lia.
        reflexivity.
      - reflexivity. }
    rewrite Hc in Hall. cbn [map fst firstn forallb] in Hall.
    apply Bool.andb_true_iff in Hall. destruct Hall as [Hitem Hall].
    apply Bool.negb_true_iff in Hitem.
    destruct (fetch_item now media_type item c st) as [st' | e] eqn:E.
    + pose proof (fetch_item_returns _ _ _ _ _ _ E) as (Hn & _ & _).
      pose proof (fetch_item_account _ _ _ _ _ _ E) as (_ & Hnone & _).
      cbn [bind]. apply IH; [exact (Hnone Hst Hitem) |].
      unfold consumed in *. destruct items_to_fetch as [cap |];
        [rewrite Hn; exact Hall | exact Hall].
    + exfalso. unfold fetch_item in E.
      destruct item as [media_url tweet_data |]; [| discriminate E].
      cbn [carries_user] in Hitem. cbn [fetch_account_info] in E.
      rewrite Hitem, Bool.andb_false_r in E. cbn [bind] in E.
      destruct (_is_twitter_media media_url);
        [destruct (_should_include_media media_url tweet_data media_type) |];
        discriminate E.
Qed.

(** *** What the media type cannot change *)

(** The part of the fetch state that decides pagination. *)
Definition pagination_view (f : Fetch) : Z * dict * CursorAttr :=
  (items_fetched f, fetch_account_info f, fetch_cursor f).

Lemma fetch_item_view (now m1 m2 : string) (item : Item) (c : CursorAttr)
      (st1 st2 : Fetch) :
  pagination_view st1 = pagination_view st2 ->
  outcome_map pagination_view (fetch_item now m1 item c st1)
  = outcome_map pagination_view (fetch_item now m2 item c st2).
Proof.
  unfold pagination_view. intros H. injection H as Hn Ha Hc.
  unfold fetch_item. cbn [items_fetched fetch_account_info fetch_cursor].
  rewrite Hn, Ha.
  destruct item as [media_url tweet_data |]; [| reflexivity].
  destruct (if negb (truthy (PyDict (fetch_account_info st2)))
               && dict_has "user" tweet_data
            then _build_account_info (dict_get_default "user" PyNone tweet_data)
            else Returns (fetch_account_info st2)) as [info | e];
    cbn [bind]; [| reflexivity].
  destruct (_is_twitter_media media_url);
    [destruct (_should_include_media media_url tweet_data m1),
              (_should_include_media media_url tweet_data m2) |];
    reflexivity.
Qed.

Lemma fetch_loop_view (now m1 m2 : string) (items_to_fetch : option Z)
      (at_end : option Exn) :
  forall (items : list (Item * CursorAttr)) (st1 st2 : Fetch),
    pagination_view st1 = pagination_view st2 ->
    outcome_map pagination_view
                (fetch_loop now m1 items_to_fetch items at_end st1)
    = outcome_map pagination_view
                  (fetch_loop now m2 items_to_fetch items at_end st2).
Proof.
  induction items as [| [item c] rest IH]; intros st1 st2 H; simpl.
  - assert (Hn : items_fetched st1 = items_fetched st2)
      by (unfold pagination_view in H; congruence).
    rewrite Hn.
    destruct (match items_to_fetch with
              | Some cap => (items_fetched st2 <? cap)%Z
              | None => true
              end); [destruct at_end |]; cbn [outcome_map]; congruence.
  - assert (Hn : items_fetched st1 = items_fetched st2)
      by (unfold pagination_view in H; congruence).
    rewrite Hn.
    destruct (match items_to_fetch with
              | Some cap => (items_fetched st2 <? cap)%Z
              | None => true
              end); [| cbn [outcome_map]; congruence].
    pose proof (fetch_item_view now m1 m2 item c st1 st2 H) as Hi.
    destruct (fetch_item now m1 item c st1) as [s1 | e1],
             (fetch_item now m2 item c st2) as [s2 | e2];
      cbn [outcome_map bind] in *; try discriminate Hi.
    + apply IH. congruence.
    + exact Hi.
Qed.

(** A result without its entries: what is left is the account info and
    the paging fields of the metadata. *)
Definition without_entries (r : Result) : Result :=
  match r with
  | TimelineResult a _ _ m =>
      TimelineResult a 0 []
        (mkPaginationMetadata 0 (meta_page m) (meta_batch_size m)
                              (has_more m) (cursor m))
  | _ => r
  end.

(** A result under another page index. *)
Definition with_page (page : Z) (r : Result) : Result :=
  match r with
  | TimelineResult a n t m =>
      TimelineResult a n t
        (mkPaginationMetadata (new_entries m) page (meta_batch_size m)
                              (has_more m) (cursor m))
  | _ => r
  end.

Lemma try_except_map (f : Result -> Result) (body : Outcome Result) :
  (forall msg, f (ErrorResult msg) = ErrorResult msg) ->
  outcome_map f (try_except body error_boundary)
  = try_except (outcome_map f body) error_boundary.
Proof.
  intros Hf. destruct body as [r | e]; [reflexivity |]. simpl.
  unfold error_boundary.
  destruct (_is_withheld_error e) as [[|] | e']; simpl; rewrite ?Hf;
    [reflexivity | | reflexivity].
  destruct (String.eqb (exn_str e) "None"); simpl; rewrite Hf; reflexivity.
Qed.

Lemma timeline_body_view (P : Platform) (extractor : Extractor)
      (username : string) (batch_size page : Z) (m1 m2 : string) :
  outcome_map without_entries
              (timeline_body P extractor username batch_size page m1)
  = outcome_map without_entries
                (timeline_body P extractor username batch_size page m2).
Proof.
  unfold timeline_body.
  destruct (run_initialize extractor); [| reflexivity]. cbn [bind].
  destruct (resolve_account _); [| reflexivity]. cbn [bind].
  destruct (skip_phase extractor batch_size page) as [iterator |];
    [| reflexivity]. cbn [bind].
  unfold fetch_phase.
  pose proof (fetch_loop_view (now P) m1 m2
                (if (batch_size >? 0)%Z then Some batch_size else None)
                (at_end iterator) (pending iterator)
                (mkFetch 0 [] [] 0 (_cursor iterator))
                (mkFetch 0 [] [] 0 (_cursor iterator)) eq_refl) as V.
  destruct (fetch_loop (now P) m1 _ _ _ _) as [f1 | e1],
           (fetch_loop (now P) m2 _ _ _ _) as [f2 | e2];
    cbn [outcome_map bind] in *; try discriminate V; [| congruence].
  unfold pagination_view in V. injection V as Vn Va Vc.
  rewrite Vn, Va, Vc.
  destruct (negb (truthy (PyDict (fetch_account_info f2)))); reflexivity.
Qed.

Lemma timeline_body_page (P : Platform) (extractor : Extractor)
      (username : string) (batch_size page : Z) (media_type : string) :
  (batch_size <= 0)%Z \/ (page <= 0)%Z ->
  timeline_body P extractor username batch_size page media_type
  = outcome_map (with_page page)
                (timeline_body P extractor username batch_size 0 media_type).
Proof.
  intros H. unfold timeline_body.
  destruct (run_initialize extractor); [| reflexivity]. cbn [bind].
  destruct (resolve_account _); [| reflexivity]. cbn [bind].
  assert (Hs : skip_phase extractor batch_size page = Returns (iter extractor)).
  { unfold skip_phase.
    destruct (batch_size >? 0)%Z eqn:Eb; [| reflexivity].
    destruct (page >? 0)%Z eqn:Ep; [| reflexivity].
    apply Z.gtb_lt in Eb, Ep. lia. }
  assert (Hs0 : skip_phase extractor batch_size 0 = Returns (iter extractor)).
  { unfold skip_phase. rewrite Bool.andb_false_r. reflexivity. }
  rewrite Hs, Hs0. cbn [bind].
  destruct (fetch_phase (now P) media_type batch_size (iter extractor))
    as [f | e]; [| reflexivity]. cbn [bind].
  destruct (negb (truthy (PyDict (fetch_account_info f)))); reflexivity.
Qed.

Lemma resolve_account_raises (e : Exn) :
  exists e', resolve_account (Raises e) = Raises e'
             /\ classifiable e' = true
             /\ (_is_withheld_error e = Returns true ->
                 e' = ValueError WITHHELD_ERROR_CODE).
Proof.
  unfold resolve_account. cbn [bind try_except].
  destruct (_is_withheld_error e) as [[|] | e'] eqn:E; cbn [bind].
  - eexists. split; [reflexivity |]. split; [reflexivity | auto].
  - exists e. split; [reflexivity |]. split; [| discriminate].
    unfold classifiable. unfold _is_withheld_error in E.
    destruct (exn_response e); [reflexivity | discriminate E | reflexivity].
  - exists e'. split; [reflexivity |]. split; [| discriminate].
    unfold _is_withheld_error in E.
    destruct (exn_response e); try discriminate E.
    cbn [bind] in E. injection E as <-. reflexivity.
Qed.

Lemma skip_phase_total (extractor : Extractor) (batch_size page : Z) :
  stream_end extractor = None ->
  exists iterator,
    skip_phase extractor batch_size page = Returns iterator
    /\ at_end iterator = None.
Proof.
  intros H. unfold skip_phase.
  destruct ((batch_size >? 0)%Z && (page >? 0)%Z);
    [destruct (cursor_set (cursor_at_iter extractor)) |];
    try (exists (iter extractor); split; [reflexivity | exact H]).
  destruct (skip_loop_drops (Z.to_nat (page * batch_size)) (iter extractor)
                            (or_intror H)) as (it & H1 & _ & H3).
  exists it. split; [exact H1 |]. rewrite H3. exact H.
Qed.

Lemma firstn_skipn_add {A} (n m : nat) :
  forall l : list A, (firstn n l ++ firstn m (skipn n l))%list = firstn (n + m) l.
Proof.
  induction n as [| n IH]; intros l; [reflexivity |].
  destruct l as [| x l]; simpl; [rewrite firstn_nil; reflexivity |].
  rewrite IH. reflexivity.
Qed.

Lemma skipn_add {A} (n m : nat) :
  forall l : list A, skipn m (skipn n l) = skipn (n + m) l.
Proof.
  induction n as [| n IH]; intros l; [reflexivity |].
  destruct l as [| x l]; simpl; [apply skipn_nil | apply IH].
Qed.

Lemma search_body_shape (P : Platform) (extractor : Extractor)
      (username date_start date_end query : string) (r : Result) :
  search_body P extractor username date_start date_end query = Returns r ->
  exists user_data,
    _build_account_info user_data = Returns (result_account_info r).
Proof.
  unfold search_body. intros H.
  apply bind_returns in H. destruct H as (_ & _ & H).
  apply bind_returns in H. destruct H as (user & _ & H).
  apply bind_returns in H. destruct H as (user_data & _ & H).
  apply bind_returns in H. destruct H as (info & Hinfo & H).
  exists user_data.
  destruct (search_loop _ _ _ _ _) as [[entries total] w].
  injection H as <-. exact Hinfo.
Qed.

(** Without a cursor token, the windows of two consecutive pages lie
    side by side in the stream. *)
Lemma adjacent_windows (extractor : Extractor)
        (batch_size page : Z) :
  (0 < batch_size)%Z -> (0 <= page)%Z ->
  cursor_set (cursor_at_iter extractor) = false ->
  (window extractor batch_size page
   ++ window extractor batch_size (page + 1))%list
  = firstn (2 * Z.to_nat batch_size)
           (skipn (Z.to_nat (page * batch_size))
                  (map fst (stream extractor))).
Proof.
  intros Hb Hp Hc. unfold window. rewrite Hc. cbn [negb].
  assert (Eb : (batch_size >? 0)%Z = true) by (apply Z.gtb_lt; exact Hb).
  assert (E1 : (page + 1 >? 0)%Z = true) by (apply Z.gtb_lt; lia).
  rewrite Eb, E1. cbn [andb].
  replace (Z.to_nat ((page + 1) * batch_size))
    with (Z.to_nat (page * batch_size) + Z.to_nat batch_size)%nat by lia.
  rewrite <- skipn_add.
  replace (2 * Z.to_nat batch_size)%nat
    with (Z.to_nat batch_size + Z.to_nat batch_size)%nat by lia.
  rewrite <- firstn_skipn_add.
  destruct (page >? 0)%Z eqn:Ep; [reflexivity |].
  assert (page = 0%Z) as -> by (rewrite Z.gtb_ltb in Ep; apply Z.ltb_ge in Ep; lia).
  reflexivity.
Qed.

Section MoreOnCalls.

Variable P : Platform.
Variables username auth_token : string.
Variables (timeline_type : string) (batch_size page : Z)
          (media_type : string) (retweets : bool).
Variables (date_start date_end media_filter : string)
          (output_file : option string).

Let t_user := _parse_username username.
Let t_extractor :=
  timeline_extractor P t_user auth_token timeline_type batch_size retweets.
Let t_matches :=
  pattern_matches P (extractor_class_of timeline_type)
                  (timeline_url t_user timeline_type).
Let t_lookup :=
  if PyStr.startswith "id:" t_user
  then user_by_rest_id t_extractor (PyStr.drop 3 t_user)
  else user_by_screen_name t_extractor t_user.
Let t_call :=
  get_metadata P username auth_token timeline_type batch_size page
               media_type retweets.
Let s_query := search_query_of t_user date_start date_end media_filter.
Let s_extractor := search_extractor P auth_token s_query.
Let s_matches := pattern_matches P TwitterSearchExtractor (search_url s_query).
Let s_call :=
  get_metadata_by_date P username auth_token date_start date_end media_filter
                       output_file.

Lemma t_call_guarded :
  t_matches = true ->
  t_call = try_except (timeline_body P t_extractor t_user batch_size page
                                     media_type) error_boundary.
Proof. apply get_metadata_guarded. Qed.

Lemma s_call_guarded :
  s_matches = true ->
  s_call = try_except (search_body P s_extractor t_user date_start date_end
                                   s_query) error_boundary.
Proof. apply get_metadata_by_date_guarded. Qed.

Lemma t_call_shape (r : Result) :
  t_call = Returns r -> is_error r = false ->
  exists iterator fetched,
    skip_phase t_extractor batch_size page = Returns iterator
    /\ fetch_phase (now P) media_type batch_size iterator = Returns fetched
    /\ fetch_account_info fetched <> []
    /\ result_account_info r = fetch_account_info fetched
    /\ result_timeline r = new_timeline_entries fetched
    /\ result_total_urls r = Some (fetch_total_urls fetched)
    /\ result_new_entries r
       = Some (Z.of_nat (List.length (new_timeline_entries fetched))).
Proof.
  intros H Hr.
  pose proof (timeline_call_success P username auth_token timeline_type
                batch_size page media_type retweets r H Hr) as Hb.
  apply timeline_body_shape in Hb.
  destruct Hb as (iterator & fetched & Hs & Hf & Ha & ->).
  exists iterator, fetched. cbn. auto 10.
Qed.

(** X8.  Once the URL matched and initialisation succeeded, a failure
    of the account lookup never leaves the call as an exception, in
    either mode: the call returns an error dictionary, with the fixed
    withheld message when the classifier takes the failure for a
    withheld account. *)
Theorem lookup_failure_is_reported (e : Exn) :
  (t_matches = true -> initialize t_extractor = None -> t_lookup = Raises e ->
   (exists msg, t_call = Returns (ErrorResult msg))
   /\ (_is_withheld_error e = Returns true ->
       t_call = Returns (ErrorResult ERROR_MSG_WITHHELD)))
  /\ (s_matches = true -> initialize s_extractor = None ->
      user_by_screen_name s_extractor t_user = Raises e ->
      (exists msg, s_call = Returns (ErrorResult msg))
      /\ (_is_withheld_error e = Returns true ->
          s_call = Returns (ErrorResult ERROR_MSG_WITHHELD))).
Proof.
  destruct (resolve_account_raises e) as (e' & Hr & Hc & Hw).
  split.
  - intros Hm Hi Hl. rewrite (t_call_guarded Hm).
    unfold timeline_body, run_initialize. rewrite Hi. cbn [bind].
    fold t_lookup. rewrite Hl, Hr. cbn [bind try_except]. split.
    + apply error_boundary_classifiable, Hc.
    + intros H. rewrite (Hw H). reflexivity.
  - intros Hm Hi Hl. rewrite (s_call_guarded Hm).
    unfold search_body, run_initialize. rewrite Hi. cbn [bind].
    rewrite Hl, Hr. cbn [bind try_except]. split.
    + apply error_boundary_classifiable, Hc.
    + intros H. rewrite (Hw H). reflexivity.
Qed.

(** X9.  The timeline of a successful timeline call holds, in stream
    order, the entries of the items of its window that are on a media
    domain and pass the media-type filter; [total_urls] and
    [new_entries] are its length, which a positive batch size bounds. *)
Theorem timeline_is_filtered_window (r : Result) :
  t_call = Returns r -> is_error r = false ->
  result_timeline r
  = map (entry_of (now P))
        (filter (passes media_type) (window t_extractor batch_size page))
  /\ result_total_urls r = Some (Z.of_nat (List.length (result_timeline r)))
  /\ result_new_entries r = Some (Z.of_nat (List.length (result_timeline r)))
  /\ ((0 < batch_size)%Z ->
      (Z.of_nat (List.length (result_timeline r)) <= batch_size)%Z).
Proof.
  intros H Hr.
  destruct (t_call_shape r H Hr)
    as (iterator & fetched & Hs & Hf & _ & _ & Ht & Hu & Hn).
  destruct (fetch_phase_window _ _ _ _ _ _ _ Hs Hf) as [He Hc].
  rewrite Ht, Hu, Hn, Hc.
  split; [exact He | split; [reflexivity | split; [reflexivity |]]].
  intros Hb. rewrite He, length_map.
  pose proof (filter_length_le (passes media_type)
                               (window t_extractor batch_size page)) as L.
  assert (W : (List.length (window t_extractor batch_size page)
               <= Z.to_nat batch_size)%nat).
  { unfold window. apply Z.gtb_lt in Hb. rewrite Hb. apply firstn_le_length. }
  lia.
Qed.

(** X11.  The media type changes the entries and nothing else: under
    any two media types a call raises the same exception, or returns
    the same error, or returns results with the same account info,
    page, batch size, [has_more] and cursor. *)
Theorem media_type_does_not_move_pages (other_type : string) :
  outcome_map without_entries t_call
  = outcome_map without_entries
      (get_metadata P username auth_token timeline_type batch_size page
                    other_type retweets).
Proof.
  destruct t_matches eqn:Hm.
  - unfold t_call.
    rewrite (get_metadata_guarded P username auth_token timeline_type
               batch_size page media_type retweets Hm).
    rewrite (get_metadata_guarded P username auth_token timeline_type
               batch_size page other_type retweets Hm).
    rewrite !try_except_map by reflexivity.
    f_equal. apply timeline_body_view.
  - unfold t_call.
    rewrite (get_metadata_unmatched P username auth_token timeline_type
               batch_size page media_type retweets Hm).
    rewrite (get_metadata_unmatched P username auth_token timeline_type
               batch_size page other_type retweets Hm).
    reflexivity.
Qed.

(** X12.  When the batch size or the page is not positive there is no
    offset: the call does what the call for page 0 does, and the page
    index only shows in the metadata. *)
Theorem page_is_idle_without_offset :
  (batch_size <= 0)%Z \/ (page <= 0)%Z ->
  t_call
  = outcome_map (with_page page)
      (get_metadata P username auth_token timeline_type batch_size 0
                    media_type retweets).
Proof.
  intros H. destruct t_matches eqn:Hm.
  - unfold t_call.
    rewrite (get_metadata_guarded P username auth_token timeline_type
               batch_size page media_type retweets Hm).
    rewrite (get_metadata_guarded P username auth_token timeline_type
               batch_size 0 media_type retweets Hm).
    rewrite try_except_map by reflexivity.
    f_equal. apply timeline_body_page, H.
  - unfold t_call.
    rewrite (get_metadata_unmatched P username auth_token timeline_type
               batch_size page media_type retweets Hm).
    rewrite (get_metadata_unmatched P username auth_token timeline_type
               batch_size 0 media_type retweets Hm).
    reflexivity.
Qed.

(** X13.  The account info of a successful timeline call is built from
    the user record of the first item of its window that carries one. *)
Theorem account_info_is_first_user_record (r : Result) :
  t_call = Returns r -> is_error r = false ->
  exists item,
    find carries_user (window t_extractor batch_size page) = Some item
    /\ _build_account_info (user_of item) = Returns (result_account_info r).
Proof.
  intros H Hr.
  destruct (t_call_shape r H Hr)
    as (iterator & fetched & Hs & Hf & Hne & Ha & _).
  unfold fetch_phase in Hf. apply fetch_loop_account in Hf.
  cbv zeta in Hf. destruct Hf as [_ Hf]. specialize (Hf eq_refl).
  rewrite (taken_is_window _ _ _ _ Hs) in Hf. rewrite Ha.
  destruct (find carries_user (window t_extractor batch_size page)) as [item |].
  - exists item. auto.
  - contradiction.
Qed.

(** X14.  When no item of the window carries a user record and the
    stream ends normally, a timeline call whose account lookup
    succeeded returns the account-not-found error. *)
Theorem window_without_user_is_account_not_found (user : dict) :
  t_matches = true -> initialize t_extractor = None ->
  resolve_account t_lookup = Returns user ->
  stream_end t_extractor = None ->
  forallb (fun item => negb (carries_user item))
          (window t_extractor batch_size page) = true ->
  t_call = Returns (ErrorResult ERROR_MSG_ACCOUNT_NOT_FOUND).
Proof.
  intros Hm Hi Hu He Hw. rewrite (t_call_guarded Hm).
  unfold timeline_body, run_initialize. rewrite Hi. cbn [bind].
  fold t_lookup. rewrite Hu. cbn [bind].
  destruct (skip_phase_total t_extractor batch_size page He)
    as (iterator & Hs & Hend).
  rewrite Hs. cbn [bind]. rewrite <- (taken_is_window _ _ _ _ Hs) in Hw.
  destruct (fetch_loop_without_user
              (now P) media_type
              (if (batch_size >? 0)%Z then Some batch_size else None)
              (pending iterator) (mkFetch 0 [] [] 0 (_cursor iterator))
              eq_refl Hw)
    as (f & Hf & Hf0).
  unfold fetch_phase. rewrite Hend, Hf. cbn [bind]. rewrite Hf0. reflexivity.
Qed.

(** X15.  An uncapped timeline call over a stream that ends in a
    failure never returns a timeline: whatever it returns is an error
    dictionary. *)
Theorem failing_stream_gives_no_partial_timeline (e : Exn) (r : Result) :
  (batch_size <= 0)%Z -> stream_end t_extractor = Some e ->
  t_call = Returns r -> is_error r = true.
Proof.
  intros Hb He H. destruct (is_error r) eqn:Hr; [reflexivity |]. exfalso.
  destruct (t_call_shape r H Hr) as (iterator & fetched & Hs & Hf & _).
  apply skip_phase_returns in Hs. destruct Hs as [_ Hs].
  unfold fetch_phase in Hf. rewrite Hs, He in Hf.
  assert (Eb : (batch_size >? 0)%Z = false)
    by (rewrite Z.gtb_ltb; apply Z.ltb_ge; exact Hb).
  rewrite Eb in Hf. exact (uncapped_fetch_fails _ _ _ _ _ _ Hf).
Qed.

(** X16.  Once the account is resolved and its info built, a date-range
    call returns, however the stream ends: in stream order the entries
    of all items on a media domain, their number as [total_urls] and
    [new_entries], the query, and the date window. *)
Theorem search_result_in_full (user : dict) (user_data : PyVal) (info : dict) :
  s_matches = true -> initialize s_extractor = None ->
  resolve_account (user_by_screen_name s_extractor t_user) = Returns user ->
  _transform_user s_extractor user = Returns user_data ->
  _build_account_info user_data = Returns info ->
  let entries :=
    map (entry_of (now P))
        (filter on_media_domain (map fst (stream s_extractor))) in
  s_call
  = Returns (SearchResult info (Z.of_nat (List.length entries)) entries s_query
               (mkDateFilter date_start date_end "search_api")
               (mkSearchMetadata (Z.of_nat (List.length entries)) "search_api"
                                 (date_start ++ " to " ++ date_end))).
Proof.
  intros Hm Hi Hu Ht Hb entries. rewrite (s_call_guarded Hm).
  unfold search_body, run_initialize. rewrite Hi. cbn [bind].
  rewrite Hu. cbn [bind]. rewrite Ht. cbn [bind]. rewrite Hb. cbn [bind].
  pose proof (search_loop_result (now P) (at_end (iter s_extractor))
                                 (pending (iter s_extractor)) [] 0%Z) as L.
  destruct (search_loop (now P) (pending (iter s_extractor))
                        (at_end (iter s_extractor)) [] 0%Z)
    as [[found total] w].
  cbn [fst app] in L. injection L as -> ->.
  cbn [try_except iter pending]. unfold entries.
  rewrite !length_map. reflexivity.
Qed.

(** X17.  The account info of every successful result, in either mode,
    has exactly the seven keys of an account record, in their order. *)
Theorem successful_results_carry_account_keys :
  (forall r, t_call = Returns r -> is_error r = false ->
             map fst (result_account_info r) = account_info_keys)
  /\ (forall r, s_call = Returns r -> is_error r = false ->
                map fst (result_account_info r) = account_info_keys).
Proof.
  split; intros r H Hr.
  - destruct (t_call_shape r H Hr)
      as (iterator & fetched & Hs & Hf & Hne & Ha & _).
    unfold fetch_phase in Hf. apply fetch_loop_account in Hf.
    cbv zeta in Hf. destruct Hf as [_ Hf]. specialize (Hf eq_refl).
    rewrite Ha.
    destruct (find carries_user _) as [item |]; [| contradiction].
    exact (build_account_info_keys _ _ Hf).
  - pose proof (search_call_success P username auth_token date_start date_end
                  media_filter output_file r H Hr) as Hb.
    apply search_body_shape in Hb. destruct Hb as (ud & Hb).
    exact (build_account_info_keys _ _ Hb).
Qed.

End MoreOnCalls.

(** X10.  Without a cursor token and with a positive batch size, when
    the calls for two consecutive pages both succeed, their timelines
    put end to end are, in stream order, the entries that pass the
    filter among the [2 * batch_size] items that follow the first
    [page * batch_size]: consecutive pages neither overlap nor leave a
    gap. *)
Theorem consecutive_pages_are_adjacent
        (P : Platform) (username auth_token timeline_type : string)
        (batch_size page : Z) (media_type : string) (retweets : bool)
        (r1 r2 : Result) :
  let extractor :=
    timeline_extractor P (_parse_username username) auth_token timeline_type
                       batch_size retweets in
  (0 < batch_size)%Z -> (0 <= page)%Z ->
  cursor_set (cursor_at_iter extractor) = false ->
  get_metadata P username auth_token timeline_type batch_size page
               media_type retweets = Returns r1 ->
  is_error r1 = false ->
  get_metadata P username auth_token timeline_type batch_size (page + 1)
               media_type retweets = Returns r2 ->
  is_error r2 = false ->
  (result_timeline r1 ++ result_timeline r2)%list
  = map (entry_of (now P))
        (filter (passes media_type)
                (firstn (2 * Z.to_nat batch_size)
                        (skipn (Z.to_nat (page * batch_size))
                               (map fst (stream extractor))))).
Proof.
  intros extractor Hb Hp Hc H1 Hr1 H2 Hr2.
  destruct (t_call_shape _ _ _ _ _ _ _ _ _ H1 Hr1)
    as (it1 & f1 & Hs1 & Hf1 & _ & _ & Ht1 & _).
  destruct (t_call_shape _ _ _ _ _ _ _ _ _ H2 Hr2)
    as (it2 & f2 & Hs2 & Hf2 & _ & _ & Ht2 & _).
  destruct (fetch_phase_window _ _ _ _ _ _ _ Hs1 Hf1) as [He1 _].
  destruct (fetch_phase_window _ _ _ _ _ _ _ Hs2 Hf2) as [He2 _].
  rewrite Ht1, Ht2, He1, He2, <- map_app, <- filter_app.
  fold extractor. rewrite (adjacent_windows extractor _ _ Hb Hp Hc).
  reflexivity.
Qed.

(* ===================================================================== *)
(** ** Further sample runs                                                *)
(* ===================================================================== *)

Module MoreSamples.

(** A stream cut short by a failure the classifier can read. *)
Definition rate_limit : Exn := mkExn false "Rate limit exceeded" NoResponseAttr.

Definition rate_limited : Platform :=
  Sample.platform (Sample.extractor [("rest_id", PyStr "42")] None
                                    [Sample.photo 1; Sample.video 2]
                                    (Some rate_limit)).

(** A stream of items that are not media tuples. *)
Definition directories_only : Platform :=
  Sample.platform (Sample.extractor [("rest_id", PyStr "42")] None
                                    [OtherItem; OtherItem] None).

(** An account lookup refused with a withheld notice in the response. *)
Definition refusal : Exn :=
  mkExn false "403 Forbidden"
        (ResponseText "errors: Account Withheld in this country").

Definition refused_lookup : Platform :=
  Sample.platform (mkExtractor None (fun _ => Raises refusal)
                               (fun _ => Raises refusal)
                               (fun u => Returns (PyDict u)) None [] None).

Definition default_account_info : dict :=
  [ ("name", PyStr ""); ("nick", PyStr ""); ("date", PyStr "");
    ("followers_count", PyInt 0); ("friends_count", PyInt 0);
    ("profile_image", PyStr ""); ("statuses_count", PyInt 0) ].

End MoreSamples.

(** A name written with doubled [@]. *)
Lemma resolved_name_is_lower_without_at_witness :
  PyStr.lower (_parse_username "@@Some_User") = _parse_username "@@Some_User"
  /\ PyStr.startswith "@" (_parse_username "@@Some_User") = false.
Proof. exact (resolved_name_is_lower_without_at "@@Some_User" eq_refl). Defined.

(** A pasted URL with blanks around it. *)
Lemma surrounding_space_is_ignored_witness :
  _parse_username ("  " ++ "https://x.com/Handle" ++ " ")
  = _parse_username "https://x.com/Handle".
Proof.
  exact (surrounding_space_is_ignored "  " "https://x.com/Handle" " "
                                      eq_refl eq_refl eq_refl).
Defined.

(** A media-tab URL with a query. *)
Lemma url_name_has_no_delimiter_witness :
  _parse_username "https://x.com/@Some_User/media?lang=en"
  = PyStr.lower (PyStr.lstrip_chars "@" "@Some_User")
  /\ all_chars (outside "/?#")
               (_parse_username "https://x.com/@Some_User/media?lang=en")
     = true.
Proof.
  exact (url_name_has_no_delimiter "https://x.com/@Some_User/media?lang=en"
                                   "@Some_User" eq_refl eq_refl).
Defined.

(** A lookup refused with a withheld notice, in both modes. *)
Lemma lookup_failure_is_reported_witness :
  get_metadata MoreSamples.refused_lookup "@Handle" "token" "media" 100 0
               "all" false
  = Returns (ErrorResult ERROR_MSG_WITHHELD)
  /\ get_metadata_by_date MoreSamples.refused_lookup "@Handle" "token"
                          "2024-01-01" "2024-12-31" "filter:media" None
     = Returns (ErrorResult ERROR_MSG_WITHHELD).
Proof.
  destruct (lookup_failure_is_reported
              MoreSamples.refused_lookup "@Handle" "token" "media" 100 0 "all"
              false "2024-01-01" "2024-12-31" "filter:media" None
              MoreSamples.refusal) as [Ht Hs].
  split.
  - exact (proj2 (Ht eq_refl eq_refl eq_refl) eq_refl).
  - exact (proj2 (Hs eq_refl eq_refl eq_refl) eq_refl).
Defined.

(** The second page of batches of one holds the video alone. *)
Lemma timeline_is_filtered_window_witness :
  result_timeline Sample.second_page
  = [entry_of (now Sample.healthy) (Sample.video 2)]
  /\ result_total_urls Sample.second_page = Some 1%Z
  /\ result_new_entries Sample.second_page = Some 1%Z.
Proof.
  destruct (timeline_is_filtered_window
              Sample.healthy "@Handle" "token" "timeline" 1 1 "all" false
              Sample.second_page eq_refl eq_refl) as (Ht & Hu & Hn & _).
  split; [exact Ht | split; [exact Hu | exact Hn]].
Defined.

(** The first page of batches of one over the healthy stream. *)
Definition first_page : Result :=
  match get_metadata Sample.healthy "@Handle" "token" "timeline" 1 0 "all" false with
  | Returns r => r
  | Raises _ => ErrorResult ""
  end.

(** Pages 0 and 1 of batches of one return the first two items. *)
Lemma consecutive_pages_are_adjacent_witness :
  (result_timeline first_page ++ result_timeline Sample.second_page)%list
  = [ entry_of (now Sample.healthy) (Sample.photo 1);
      entry_of (now Sample.healthy) (Sample.video 2) ].
Proof.
  exact (consecutive_pages_are_adjacent
           Sample.healthy "@Handle" "token" "timeline" 1 0 "all" false
           first_page Sample.second_page eq_refl
           (fun H => match H with eq_refl => I end) eq_refl
           eq_refl eq_refl eq_refl eq_refl).
Defined.

(** Without a batch size, page 5 is page 0 under another label. *)
Lemma page_is_idle_without_offset_witness :
  get_metadata Sample.healthy "@Handle" "token" "timeline" 0 5 "image" false
  = outcome_map (with_page 5)
      (get_metadata Sample.healthy "@Handle" "token" "timeline" 0 0 "image"
                    false).
Proof.
  apply (page_is_idle_without_offset
           Sample.healthy "@Handle" "token" "timeline" 0 5 "image" false).
  left. apply Z.le_refl.
Defined.

(** The account of the second page is the one its video carries. *)
Lemma account_info_is_first_user_record_witness :
  exists item,
    find carries_user
         (window (timeline_extractor Sample.healthy "handle" "token"
                                     "timeline" 1 false) 1 1) = Some item
    /\ _build_account_info (user_of item)
       = Returns (result_account_info Sample.second_page).
Proof.
  exact (account_info_is_first_user_record
           Sample.healthy "@Handle" "token" "timeline" 1 1 "all" false
           Sample.second_page eq_refl eq_refl).
Defined.

(** A stream of directory messages yields no account. *)
Lemma window_without_user_is_account_not_found_witness :
  get_metadata MoreSamples.directories_only "@Handle" "token" "timeline" 0 0
               "all" false
  = Returns (ErrorResult ERROR_MSG_ACCOUNT_NOT_FOUND).
Proof.
  exact (window_without_user_is_account_not_found
           MoreSamples.directories_only "@Handle" "token" "timeline" 0 0 "all"
           false [("rest_id", PyStr "42")] eq_refl eq_refl eq_refl eq_refl
           eq_refl).
Defined.

(** Two items, then a rate limit: the error alone comes back. *)
Lemma failing_stream_gives_no_partial_timeline_witness :
  get_metadata MoreSamples.rate_limited "@Handle" "token" "timeline" 0 0
               "all" false
  = Returns (ErrorResult "Rate limit exceeded")
  /\ is_error (ErrorResult "Rate limit exceeded") = true.
Proof.
  split; [reflexivity |].
  apply (failing_stream_gives_no_partial_timeline
           MoreSamples.rate_limited "@Handle" "token" "timeline" 0 0 "all"
           false MoreSamples.rate_limit (ErrorResult "Rate limit exceeded")).
  - apply Z.le_refl.
  - reflexivity.
  - reflexivity.
Defined.

(** The same two items and rate limit in date-range mode: both entries
    come back. *)
Lemma search_result_in_full_witness :
  get_metadata_by_date MoreSamples.rate_limited "@Handle" "token"
                       "2024-01-01" "2024-12-31" "filter:media" None
  = Returns
      (SearchResult MoreSamples.default_account_info 2
         [ entry_of (now MoreSamples.rate_limited) (Sample.photo 1);
           entry_of (now MoreSamples.rate_limited) (Sample.video 2) ]
         "from:handle since:2024-01-01 until:2024-12-31 filter:media"
         (mkDateFilter "2024-01-01" "2024-12-31" "search_api")
         (mkSearchMetadata 2 "search_api" "2024-01-01 to 2024-12-31")).
Proof.
  exact (search_result_in_full
           MoreSamples.rate_limited "@Handle" "token" "2024-01-01"
           "2024-12-31" "filter:media" None [("rest_id", PyStr "42")]
           (PyDict [("rest_id", PyStr "42")]) MoreSamples.default_account_info
           eq_refl eq_refl eq_refl eq_refl eq_refl).
Defined.
